(** * Event CRUD gateway: the HTTP handlers of [functions/index.js]

    A shallow embedding of the six [onRequest] handlers ([createEvent],
    [getAllEvents], [getEventById], [updateEvent], [deleteEvent],
    [filterEvents]) together with the part of the JavaScript runtime and of
    the Firestore SDK they call into.

    - JavaScript values are an inductive type; objects are association
      lists, because property order is observable in a JSON body.
    - A handler is a computation in a small state-and-exception monad over a
      [World]: the backend's state, the trace of SDK calls issued so far and
      the lines written to the logger.
    - The SDK ([firebase-admin/firestore]) is not part of the repository.
      Its local functions ([Timestamp.fromDate], [collection.doc]) are
      modelled after the library: both validate their argument and throw on
      a bad one.
    - The backend (clock, [Date.parse], remote document operations) is a
      record of operations, [Platform]; the handlers are written once, over
      any platform.  [Firestore.platform] is the reference instance, an
      in-memory collection with the SDK's documented behaviour, and
      [Outage.platform] is a backend that rejects every remote call. *)

From Stdlib Require Import ZArith List String Ascii Bool Lia DecimalString.
Import ListNotations.
Local Open Scope string_scope.
Local Open Scope Z_scope.
Set Warnings "-register-all".

(** ** JavaScript values *)

(** The values that travel through the handlers: JSON payloads of the
    request, the Firestore [Timestamp] class and the [FieldValue.serverTimestamp()]
    sentinel.  Numbers are the integer-valued ones. *)
Inductive JsVal : Type :=
| JUndefined
| JNull
| JBool (b : bool)
| JNum (n : Z)
| JStr (s : string)
| JArr (elems : list JsVal)
| JObj (props : list (string * JsVal))
| JTimestamp (seconds nanoseconds : Z)
| JServerTimestamp.

(** An object: its own enumerable properties, in insertion order. *)
Definition Obj : Type := list (string * JsVal).

(** [!!v] of JavaScript: [undefined], [null], [false], [0] and the empty
    string are falsy, every object is truthy. *)
Definition truthy (v : JsVal) : bool :=
  match v with
  | JUndefined | JNull => false
  | JBool b => b
  | JNum n => negb (Z.eqb n 0)
  | JStr s => negb (String.eqb s "")
  | JArr _ | JObj _ | JTimestamp _ _ | JServerTimestamp => true
  end.

(** [o[k]] (and one name of a destructuring pattern [const {k} = o]): the
    value of the property, [undefined] when [o] has none. *)
Fixpoint get_prop (o : Obj) (k : string) : JsVal :=
  match o with
  | [] => JUndefined
  | (k', v) :: o' => if String.eqb k' k then v else get_prop o' k
  end.

(** [o[k] = v]: an existing property keeps its place, a new one goes last. *)
Fixpoint set_prop (k : string) (v : JsVal) (o : Obj) : Obj :=
  match o with
  | [] => [(k, v)]
  | (k', v') :: o' =>
      if String.eqb k' k then (k, v) :: o' else (k', v') :: set_prop k v o'
  end.

(** [{...dst, ...src}]: the properties of [src] are assigned onto [dst] in
    order. *)
Definition spread (src dst : Obj) : Obj :=
  fold_left (fun acc kv => set_prop (fst kv) (snd kv) acc) src dst.

(** Structural equality of values. *)
Fixpoint JsVal_eqb (a b : JsVal) {struct a} : bool :=
  match a, b with
  | JUndefined, JUndefined => true
  | JNull, JNull => true
  | JBool x, JBool y => Bool.eqb x y
  | JNum x, JNum y => Z.eqb x y
  | JStr x, JStr y => String.eqb x y
  | JArr xs, JArr ys =>
      (fix elems_eqb (xs ys : list JsVal) {struct xs} : bool :=
         match xs, ys with
         | [], [] => true
         | x :: xs', y :: ys' => JsVal_eqb x y && elems_eqb xs' ys'
         | _, _ => false
         end) xs ys
  | JObj ps, JObj qs =>
      (fix props_eqb (ps qs : list (string * JsVal)) {struct ps} : bool :=
         match ps, qs with
         | [], [] => true
         | (k, x) :: ps', (k', y) :: qs' =>
             String.eqb k k' && JsVal_eqb x y && props_eqb ps' qs'
         | _, _ => false
         end) ps qs
  | JTimestamp s n, JTimestamp s' n' => Z.eqb s s' && Z.eqb n n'
  | JServerTimestamp, JServerTimestamp => true
  | _, _ => false
  end.

(** [String(v)] for the values a request can carry; an array joins its
    elements with commas, [null] and [undefined] elements print as nothing. *)
Fixpoint ToString (v : JsVal) : string :=
  match v with
  | JUndefined => "undefined"
  | JNull => "null"
  | JBool true => "true"
  | JBool false => "false"
  | JNum n => NilZero.string_of_int (Z.to_int n)
  | JStr s => s
  | JArr elems =>
      (fix join (l : list JsVal) : string :=
         match l with
         | [] => ""
         | x :: l' =>
             let sx := match x with
                       | JUndefined | JNull => ""
                       | _ => ToString x
                       end in
             match l' with
             | [] => sx
             | _ :: _ => sx ++ "," ++ join l'
             end
         end) elems
  | JObj _ | JTimestamp _ _ | JServerTimestamp => "[object Object]"
  end.

(** ** Dates and timestamps *)

(** A [Date]: its time value in milliseconds since the epoch, [None] for an
    Invalid Date (time value [NaN]). *)
Definition JsDate : Type := option Z.

(** [TimeClip] of ECMA-262: a time value beyond 8.64e15 ms is [NaN]. *)
Definition TimeClip (t : Z) : JsDate :=
  if Z.abs t <=? 8640000000000000 then Some t else None.

Section NewDate.
(** [Date.parse], which is implementation-defined on strings outside the
    ISO format. *)
Variable Date_parse : string -> JsDate.

(** [new Date(v)] with one argument: a string is parsed, any other
    primitive goes through [ToNumber] ([undefined] is [NaN], [null] is 0,
    a boolean is 0 or 1), an object through its string form. *)
Definition new_Date (v : JsVal) : JsDate :=
  match v with
  | JUndefined => None
  | JNull => Some 0
  | JBool b => Some (if b then 1 else 0)
  | JNum n => TimeClip n
  | JStr s => Date_parse s
  | JArr _ | JObj _ | JTimestamp _ _ | JServerTimestamp =>
      Date_parse (ToString v)
  end.
End NewDate.

(** ** Exceptions and results *)

(** What a call may throw.  [InvalidArgument] is the SDK's argument
    validation ("Value for argument ... is not a valid ..."), the others are
    rejections by the backend. *)
Inductive Exn : Type :=
| InvalidArgument (arg : string)
| NotFound
| AlreadyExists
| Unavailable.

Inductive Res (A : Type) : Type :=
| Ok (a : A)
| Throw (e : Exn).
Arguments Ok {A} a.
Arguments Throw {A} e.

(** Range of the [seconds] of a [Timestamp]: 0001-01-01T00:00:00Z to
    9999-12-31T23:59:59Z. *)
Definition MIN_SECONDS : Z := -62135596800.
Definition MAX_SECONDS : Z := 253402300799.

(** [new Timestamp(seconds, nanoseconds)]: the constructor validates both
    arguments as integers within range. *)
Definition Timestamp_new (seconds nanoseconds : Z) : Res JsVal :=
  if negb ((MIN_SECONDS <=? seconds) && (seconds <=? MAX_SECONDS)) then
    Throw (InvalidArgument "seconds")
  else if negb ((0 <=? nanoseconds) && (nanoseconds <=? 999999999)) then
    Throw (InvalidArgument "nanoseconds")
  else Ok (JTimestamp seconds nanoseconds).

(** [Timestamp.fromMillis(ms)]: [seconds = floor(ms / 1000)],
    [nanos = floor((ms - seconds * 1000) * 1e6)]. *)
Definition Timestamp_fromMillis (ms : Z) : Res JsVal :=
  let seconds := ms / 1000 in
  let nanos := (ms - seconds * 1000) * 1000000 in
  Timestamp_new seconds nanos.

(** [Timestamp.fromDate(date)] is [Timestamp.fromMillis(date.getTime())].
    For an Invalid Date [getTime()] is [NaN], so [seconds] is [NaN], which
    the constructor rejects: "Value for argument seconds is not a valid
    integer". *)
Definition Timestamp_fromDate (d : JsDate) : Res JsVal :=
  match d with
  | None => Throw (InvalidArgument "seconds")
  | Some ms => Timestamp_fromMillis ms
  end.

(** ** Document references *)

(** A resource path, as its segments. *)
Definition Path : Type := list string.

Fixpoint Path_eqb (p q : Path) : bool :=
  match p, q with
  | [], [] => true
  | a :: p', b :: q' => String.eqb a b && Path_eqb p' q'
  | _, _ => false
  end.

(** [s.indexOf('//') >= 0]. *)
Fixpoint has_double_slash (s : string) : bool :=
  match s with
  | EmptyString => false
  | String c r =>
      match r with
      | EmptyString => false
      | String c' _ =>
          (Ascii.eqb c "/" && Ascii.eqb c' "/") || has_double_slash r
      end
  end.

(** [ResourcePath.split]: [s.split('/')] without the empty segments.  [cur]
    is the segment being read. *)
Fixpoint split_from (cur s : string) : list string :=
  match s with
  | EmptyString => if String.eqb cur "" then [] else [cur]
  | String c r =>
      if Ascii.eqb c "/" then
        if String.eqb cur "" then split_from "" r else cur :: split_from "" r
      else split_from (cur ++ String c "") r
  end.

Definition split_path (s : string) : list string := split_from "" s.

(** A [DocumentReference]: the path of the document. *)
Record DocRef : Type := { ref_path : Path }.

(** [ref.id]: the last segment of the path. *)
Definition ref_id (r : DocRef) : string := last (ref_path r) "".

(** [collection("events").doc(documentPath)], called with one argument.
    [validateResourcePath] wants a non-empty string without [//]; the path
    appended to the collection's must have an even number of segments. *)
Definition collection_doc (documentPath : JsVal) : Res DocRef :=
  match documentPath with
  | JStr s =>
      if String.eqb s "" then Throw (InvalidArgument "documentPath")
      else if has_double_slash s then Throw (InvalidArgument "documentPath")
      else
        let path := "events" :: split_path s in
        if Nat.even (List.length path) then Ok {| ref_path := path |}
        else Throw (InvalidArgument "documentPath")
  | _ => Throw (InvalidArgument "documentPath")
  end.

(** ** The backend *)

(** An equality filter of a query: [where(field, "==", value)]. *)
Definition Filter : Type := (string * JsVal)%type.

(** Everything outside the handlers' own code that has state or is left open
    by the language: the clock, [Date.parse], and the remote operations of
    the document store on the [events] collection.  A remote operation may
    reject (the awaited promise throws) and may change the backend. *)
Record Platform (S : Type) : Type := {
  (** [Date.parse(s)] *)
  Date_parse : string -> JsDate;
  (** [Date.now()] *)
  Date_now : S -> Z;
  (** [collection.add(data)]: the id of the new document *)
  remote_add : Obj -> S -> Res string * S;
  (** [ref.get()]: the data of the document, [None] when [!snapshot.exists] *)
  remote_get : DocRef -> S -> Res (option Obj) * S;
  (** [ref.update(data)] *)
  remote_update : DocRef -> Obj -> S -> Res unit * S;
  (** [ref.delete()] *)
  remote_delete : DocRef -> S -> Res unit * S;
  (** [query.get()]: the matching documents of [events], id and data *)
  remote_query : list Filter -> S -> Res (list (string * Obj)) * S
}.
Arguments Date_parse {S} _ _.
Arguments Date_now {S} _ _.
Arguments remote_add {S} _ _ _.
Arguments remote_get {S} _ _ _.
Arguments remote_update {S} _ _ _ _.
Arguments remote_delete {S} _ _ _.
Arguments remote_query {S} _ _ _.

(** The calls into the store SDK, as the trace records them. *)
Inductive Call : Type :=
| CallDoc (documentPath : JsVal)
| CallAdd (data : Obj)
| CallGet (ref : DocRef)
| CallUpdate (ref : DocRef) (data : Obj)
| CallDelete (ref : DocRef)
| CallQuery (filters : list Filter).

(** The calls that change the collection. *)
Definition is_write (c : Call) : bool :=
  match c with
  | CallAdd _ | CallUpdate _ _ | CallDelete _ => true
  | CallDoc _ | CallGet _ | CallQuery _ => false
  end.

(** The calls that read the collection. *)
Definition is_read (c : Call) : bool :=
  match c with
  | CallGet _ | CallQuery _ => true
  | CallDoc _ | CallAdd _ | CallUpdate _ _ | CallDelete _ => false
  end.

(** What a handler runs in: the backend, the SDK calls issued so far (oldest
    first) and what was handed to [logger.warn]. *)
Record World (S : Type) : Type := {
  backend : S;
  trace : list Call;
  logs : list (string * Exn)
}.
Arguments backend {S} _.
Arguments trace {S} _.
Arguments logs {S} _.
Arguments Build_World {S} _ _ _.

(** A fresh invocation: nothing called, nothing logged. *)
Definition fresh {S : Type} (s : S) : World S :=
  {| backend := s; trace := []; logs := [] |}.

(** ** The handler monad *)

Definition M (S A : Type) : Type := World S -> Res A * World S.

Definition ret {S A : Type} (a : A) : M S A := fun w => (Ok a, w).

Definition bind {S A B : Type} (m : M S A) (k : A -> M S B) : M S B :=
  fun w =>
    match m w with
    | (Ok a, w') => k a w'
    | (Throw e, w') => (Throw e, w')
    end.

Declare Scope handler_scope.
Delimit Scope handler_scope with handler.
Notation "x <- m ;; k" := (bind m (fun x => k))
  (at level 61, m at next level, right associativity) : handler_scope.
Notation "m ;; k" := (bind m (fun _ => k))
  (at level 61, right associativity) : handler_scope.
Local Open Scope handler_scope.

(** [try { body } catch (error) { handler }]; what [body] did before it threw
    stays done. *)
Definition try_catch {S A : Type} (body : M S A) (handler : Exn -> M S A)
  : M S A :=
  fun w =>
    match body w with
    | (Ok a, w') => (Ok a, w')
    | (Throw e, w') => handler e w'
    end.

(** A pure SDK call that may throw. *)
Definition lift {S A : Type} (r : Res A) : M S A := fun w => (r, w).

(** Note a call in the trace. *)
Definition record {S : Type} (c : Call) : M S unit :=
  fun w =>
    (Ok tt, {| backend := backend w; trace := trace w ++ [c]; logs := logs w |}).

(** Run a remote operation on the backend. *)
Definition remote {S A : Type} (op : S -> Res A * S) : M S A :=
  fun w =>
    let (r, s') := op (backend w) in
    (r, {| backend := s'; trace := trace w; logs := logs w |}).

(** [logger.warn(message, error)] *)
Definition logger_warn {S : Type} (message : string) (error : Exn) : M S unit :=
  fun w =>
    (Ok tt, {| backend := backend w; trace := trace w;
               logs := logs w ++ [(message, error)] |}).

(** ** Requests and responses *)

(** The parts of the Express request the handlers read.  [query] is the
    parsed query string and [body] the parsed body, both objects. *)
Record Request : Type := {
  method : string;
  query : Obj;
  body : Obj
}.

(** [res.status(status).json(payload)] or [.send(payload)]. *)
Record Response : Type := {
  status : Z;
  payload : JsVal
}.

Definition respond {S : Type} (code : Z) (value : JsVal) : M S Response :=
  ret {| status := code; payload := value |}.

(** [{id: doc.id, ...doc.data()}] *)
Definition with_id (id : string) (data : Obj) : JsVal :=
  JObj (spread data [("id", JStr id)]).

(** ** The handlers *)

(** The six HTTP endpoints. *)
Inductive Endpoint : Type :=
| CreateEvent | GetAllEvents | GetEventById
| UpdateEvent | DeleteEvent | FilterEvents.

Section Handlers.
Context {S : Type} (P : Platform S).

(** [Timestamp.now().toMillis()]: the clock, in milliseconds. *)
Definition Timestamp_now_toMillis : M S Z :=
  fun w => (Ok (Date_now P (backend w)), w).

(** [getFirestore().collection("events").doc(id)] *)
Definition events_doc (id : JsVal) : M S DocRef :=
  record (CallDoc id) ;; lift (collection_doc id).

(** [await getFirestore().collection("events").add(data)] *)
Definition events_add (data : Obj) : M S string :=
  record (CallAdd data) ;; remote (remote_add P data).

(** [await ref.get()] *)
Definition doc_get (ref : DocRef) : M S (option Obj) :=
  record (CallGet ref) ;; remote (remote_get P ref).

(** [await ref.update(data)] *)
Definition doc_update (ref : DocRef) (data : Obj) : M S unit :=
  record (CallUpdate ref data) ;; remote (remote_update P ref data).

(** [await ref.delete()] *)
Definition doc_delete (ref : DocRef) : M S unit :=
  record (CallDelete ref) ;; remote (remote_delete P ref).

(** [await eventsRef.get()], [eventsRef] being the collection narrowed by
    [filters]. *)
Definition events_get (filters : list Filter) : M S (list (string * Obj)) :=
  record (CallQuery filters) ;; remote (remote_query P filters).

(** [Timestamp.fromDate(new Date(v))] *)
Definition Timestamp_of (v : JsVal) : M S JsVal :=
  lift (Timestamp_fromDate (new_Date (Date_parse P) v)).

(** [eventsRef.where(field, "==", value)] *)
Definition where_eq (eventsRef : list Filter) (field : string) (value : JsVal)
  : list Filter :=
  eventsRef ++ [(field, value)].

(** Lines 49-57: the document is built, then added. *)
Definition createEvent_insert
    (title description date location organizer eventType : JsVal)
  : M S string :=
  date' <- Timestamp_of date ;;
  events_add [("title", title);
              ("description", description);
              ("date", date');
              ("location", location);
              ("organizer", organizer);
              ("eventType", eventType);
              ("updatedAt", JServerTimestamp)].

Definition createEvent (req : Request) : M S Response :=
  timeNow <- Timestamp_now_toMillis ;;
  try_catch
    (if negb (String.eqb (method req) "POST") then
       respond 405
         (JObj [("status", JStr "failure");
                ("message", JStr "Method Not Allowed");
                ("error", JObj [("code", JNum 405);
                                ("details", JStr "Only POST requests are allowed")]);
                ("timestamp", JNum timeNow)])
     else
       let title := get_prop (body req) "title" in
       let description := get_prop (body req) "description" in
       let date := get_prop (body req) "date" in
       let location := get_prop (body req) "location" in
       let organizer := get_prop (body req) "organizer" in
       let eventType := get_prop (body req) "eventType" in
       if negb (truthy title) || negb (truthy description)
          || negb (truthy date) || negb (truthy location)
          || negb (truthy organizer) || negb (truthy eventType)
       then
         respond 400
           (JObj [("status", JStr "failure");
                  ("message", JStr "Missing required fields");
                  ("error", JObj [("code", JNum 400);
                                  ("details", JStr "Please provide all required fields")]);
                  ("timestamp", JNum timeNow)])
       else
         result <- createEvent_insert
                     title description date location organizer eventType ;;
         respond 201
           (JObj [("status", JStr "success");
                  ("data", JObj [("id", JStr result);
                                 ("title", title);
                                 ("description", description);
                                 ("date", date);
                                 ("location", location);
                                 ("organizer", organizer);
                                 ("eventType", eventType)]);
                  ("timestamp", JNum timeNow)]))
    (fun error =>
       logger_warn "Error adding event: " error ;;
       respond 500
         (JObj [("status", JStr "failure");
                ("message", JStr "Error creating event");
                ("error", JObj [("code", JNum 500);
                                ("details", JStr "Unable to create new event")]);
                ("timestamp", JNum timeNow)])).

Definition getAllEvents (req : Request) : M S Response :=
  timeNow <- Timestamp_now_toMillis ;;
  try_catch
    (snapshot <- events_get [] ;;
     let events := map (fun doc => with_id (fst doc) (snd doc)) snapshot in
     if negb (String.eqb (method req) "GET") then
       respond 405
         (JObj [("status", JStr "failure");
                ("message", JStr "Method Not Allowed");
                ("error", JObj [("code", JNum 405);
                                ("details", JStr "Only GET requests are allowed")]);
                ("timestamp", JNum timeNow)])
     else
       respond 201
         (JObj [("status", JStr "success");
                ("data", JObj [("events", JArr events)]);
                ("timestamp", JNum timeNow)]))
    (fun error =>
       logger_warn "Error fetching events: " error ;;
       respond 500
         (JObj [("status", JStr "failure");
                ("message", JStr "Error fetching all event");
                ("error", JObj [("code", JNum 500);
                                ("details", JStr "Unable to get all events")]);
                ("timestamp", JNum timeNow)])).

Definition getEventById (req : Request) : M S Response :=
  timeNow <- Timestamp_now_toMillis ;;
  try_catch
    (if negb (String.eqb (method req) "GET") then
       respond 405
         (JObj [("status", JStr "failure");
                ("message", JStr "Method Not Allowed");
                ("error", JObj [("code", JNum 405);
                                ("details", JStr "Only GET requests are allowed")]);
                ("timestamp", JNum timeNow)])
     else
       let id := get_prop (query req) "id" in
       ref <- events_doc id ;;
       eventDoc <- doc_get ref ;;
       respond 200
         (JObj [("status", JStr "success");
                ("data", match eventDoc with
                         | None => JObj []
                         | Some data => with_id (ref_id ref) data
                         end);
                ("timestamp", JNum timeNow)]))
    (fun error =>
       logger_warn "Error fetching event: " error ;;
       respond 500
         (JObj [("status", JStr "failure");
                ("message", JStr "Error fetching event");
                ("error", JObj [("code", JNum 500);
                                ("details", JStr "Unable to get event")]);
                ("timestamp", JNum timeNow)])).

(** Lines 191-203: the reference, then the document, then the update. *)
Definition updateEvent_update (req : Request) : M S unit :=
  let id := get_prop (query req) "id" in
  let title := get_prop (body req) "title" in
  let description := get_prop (body req) "description" in
  let date := get_prop (body req) "date" in
  let location := get_prop (body req) "location" in
  let organizer := get_prop (body req) "organizer" in
  let eventType := get_prop (body req) "eventType" in
  ref <- events_doc id ;;
  date' <- Timestamp_of date ;;
  doc_update ref [("title", title);
                  ("description", description);
                  ("date", date');
                  ("location", location);
                  ("organizer", organizer);
                  ("eventType", eventType);
                  ("updatedAt", JServerTimestamp)].

Definition updateEvent (req : Request) : M S Response :=
  timeNow <- Timestamp_now_toMillis ;;
  try_catch
    (updateEvent_update req ;;
     respond 200 (JObj [("message", JStr "Event updated")]))
    (fun error =>
       logger_warn "Error updating event: " error ;;
       respond 500
         (JObj [("status", JStr "failure");
                ("message", JStr "Error updating event");
                ("error", JObj [("code", JNum 500);
                                ("details", JStr "Unable to update event")]);
                ("timestamp", JNum timeNow)])).

Definition deleteEvent (req : Request) : M S Response :=
  timeNow <- Timestamp_now_toMillis ;;
  try_catch
    (let id := get_prop (query req) "id" in
     ref <- events_doc id ;;
     doc_delete ref ;;
     respond 200
       (JObj [("status", JStr "success");
              ("data", JObj [("message", JStr "Event deleted")]);
              ("timestamp", JNum timeNow)]))
    (fun error =>
       logger_warn "Error deleting event: " error ;;
       respond 500
         (JObj [("status", JStr "failure");
                ("message", JStr "Error deleting event");
                ("error", JObj [("code", JNum 500);
                                ("details", JStr "Unable to delete event")]);
                ("timestamp", JNum timeNow)])).

Definition filterEvents (req : Request) : M S Response :=
  timeNow <- Timestamp_now_toMillis ;;
  try_catch
    (let eventType := get_prop (query req) "eventType" in
     let date := get_prop (query req) "date" in
     if negb (truthy eventType) && negb (truthy date) then
       respond 400
         (JObj [("status", JStr "failure");
                ("message", JStr "Missing required fields");
                ("error", JObj [("code", JNum 400);
                                ("details", JStr "Please provide at least one filter")]);
                ("timestamp", JNum timeNow)])
     else
       dateFilter <- Timestamp_of date ;;
       let eventsRef := [] in
       let eventsRef :=
         if truthy eventType then where_eq eventsRef "eventType" eventType
         else eventsRef in
       let eventsRef :=
         if truthy date then where_eq eventsRef "date" dateFilter
         else eventsRef in
       snapshot <- events_get eventsRef ;;
       let events := map (fun doc => with_id (fst doc) (snd doc)) snapshot in
       respond 200 (JArr events))
    (fun error =>
       logger_warn "Error filtering event: " error ;;
       respond 500
         (JObj [("status", JStr "failure");
                ("message", JStr "Error filtering event");
                ("error", JObj [("code", JNum 500);
                                ("details", JStr "Unable to filter event")]);
                ("timestamp", JNum timeNow)])).

Definition handle (e : Endpoint) : Request -> M S Response :=
  match e with
  | CreateEvent => createEvent
  | GetAllEvents => getAllEvents
  | GetEventById => getEventById
  | UpdateEvent => updateEvent
  | DeleteEvent => deleteEvent
  | FilterEvents => filterEvents
  end.
End Handlers.

(** ** The reference backend: an in-memory Firestore *)

Module Firestore.

(** The database: the server clock, the documents by path in creation
    order, and the counter the generated ids are drawn from. *)
Record State : Type := {
  clock : Z;
  docs : list (Path * Obj);
  next_id : nat
}.

(** The data of the document at [p]. *)
Definition find_doc (p : Path) (l : list (Path * Obj)) : option Obj :=
  match find (fun d => Path_eqb (fst d) p) l with
  | Some d => Some (snd d)
  | None => None
  end.

Definition remove_doc (p : Path) (l : list (Path * Obj)) : list (Path * Obj) :=
  filter (fun d => negb (Path_eqb (fst d) p)) l.

Definition replace_doc (p : Path) (data : Obj) (l : list (Path * Obj))
  : list (Path * Obj) :=
  map (fun d => if Path_eqb (fst d) p then (p, data) else d) l.

(** A remote call takes time. *)
Definition tick (s : State) : State :=
  {| clock := clock s + 1; docs := docs s; next_id := next_id s |}.

(** The SDK refuses [undefined] as a field value ([ignoreUndefinedProperties]
    is off by default). *)
Definition has_undefined (data : Obj) : bool :=
  existsb (fun kv => match snd kv with JUndefined => true | _ => false end) data.

(** The server replaces the [serverTimestamp()] sentinel by its time. *)
Definition server_time (now : Z) : JsVal :=
  JTimestamp (now / 1000) ((now - now / 1000 * 1000) * 1000000).

Definition resolve (now : Z) (data : Obj) : Obj :=
  map (fun kv => match snd kv with
                 | JServerTimestamp => (fst kv, server_time now)
                 | _ => kv
                 end) data.

(** The id [add] generates for the new document. *)
Definition autoId (n : nat) : string :=
  "auto" ++ NilEmpty.string_of_uint (Nat.to_uint n).

(** [add]: a document with a generated id is created; creation fails when
    the id is taken. *)
Definition add (data : Obj) (s : State) : Res string * State :=
  if has_undefined data then (Throw (InvalidArgument "data"), s)
  else
    let id := autoId (next_id s) in
    let p := ["events"; id] in
    match find_doc p (docs s) with
    | Some _ =>
        (Throw AlreadyExists,
         {| clock := clock s + 1; docs := docs s; next_id := Datatypes.S (next_id s) |})
    | None =>
        (Ok id,
         {| clock := clock s + 1;
            docs := docs s ++ [(p, resolve (clock s) data)];
            next_id := Datatypes.S (next_id s) |})
    end.

(** [get]: the snapshot of one document. *)
Definition get (ref : DocRef) (s : State) : Res (option Obj) * State :=
  (Ok (find_doc (ref_path ref) (docs s)), tick s).

(** [update]: the given fields overwrite those of an existing document; a
    missing document is an error (NOT_FOUND). *)
Definition update (ref : DocRef) (data : Obj) (s : State) : Res unit * State :=
  if has_undefined data then (Throw (InvalidArgument "dataOrField"), s)
  else
    match find_doc (ref_path ref) (docs s) with
    | None => (Throw NotFound, tick s)
    | Some old =>
        (Ok tt,
         {| clock := clock s + 1;
            docs := replace_doc (ref_path ref)
                      (spread (resolve (clock s) data) old) (docs s);
            next_id := next_id s |})
    end.

(** [delete]: succeeds whether or not the document exists. *)
Definition delete (ref : DocRef) (s : State) : Res unit * State :=
  (Ok tt,
   {| clock := clock s + 1;
      docs := remove_doc (ref_path ref) (docs s);
      next_id := next_id s |}).

(** A document passes [where(field, "==", value)] when it has the field and
    the values are equal. *)
Definition passes (data : Obj) (f : Filter) : bool :=
  match find (fun kv => String.eqb (fst kv) (fst f)) data with
  | Some kv => JsVal_eqb (snd kv) (snd f)
  | None => false
  end.

(** The documents of the collection [events] that pass every filter. *)
Fixpoint matching (filters : list Filter) (l : list (Path * Obj))
  : list (string * Obj) :=
  match l with
  | [] => []
  | (p, data) :: l' =>
      match p with
      | [c; id] =>
          if String.eqb c "events" && forallb (passes data) filters
          then (id, data) :: matching filters l'
          else matching filters l'
      | _ => matching filters l'
      end
  end.

Definition run_query (filters : list Filter) (s : State)
  : Res (list (string * Obj)) * State :=
  (Ok (matching filters (docs s)), tick s).

Definition platform (parse : string -> JsDate) : Platform State :=
  {| Date_parse := parse;
     Date_now := clock;
     remote_add := add;
     remote_get := get;
     remote_update := update;
     remote_delete := delete;
     remote_query := run_query |}.

End Firestore.

(** ** A backend that is down *)

Module Outage.

(** Only the clock is left; every remote call is rejected (UNAVAILABLE). *)
Definition platform (parse : string -> JsDate) : Platform Z :=
  {| Date_parse := parse;
     Date_now := fun now => now;
     remote_add := fun _ now => (Throw Unavailable, now + 1);
     remote_get := fun _ now => (Throw Unavailable, now + 1);
     remote_update := fun _ _ now => (Throw Unavailable, now + 1);
     remote_delete := fun _ now => (Throw Unavailable, now + 1);
     remote_query := fun _ now => (Throw Unavailable, now + 1) |}.

End Outage.

(** ** Sample inputs *)

(** [Date.parse] on the dates of the scenarios. *)
Definition sample_parse (s : string) : JsDate :=
  if String.eqb s "2024-05-01" then Some 1714521600000 else None.

Definition meetup : Obj :=
  [("title", JStr "Meetup"); ("description", JStr "d");
   ("date", JStr "2024-05-01"); ("location", JStr "Hall A");
   ("organizer", JStr "Org"); ("eventType", JStr "social")].

Definition empty_db : Firestore.State :=
  {| Firestore.clock := 1700000000000; Firestore.docs := [];
     Firestore.next_id := 0 |}.

Definition post_meetup : Request :=
  {| method := "POST"; query := []; body := meetup |}.

(** The database after the meetup was created. *)
Definition meetup_db : Firestore.State :=
  {| Firestore.clock := 1700000000001;
     Firestore.docs :=
       [(["events"; "auto0"],
         [("title", JStr "Meetup"); ("description", JStr "d");
          ("date", JTimestamp 1714521600 0);
          ("location", JStr "Hall A"); ("organizer", JStr "Org");
          ("eventType", JStr "social");
          ("updatedAt", JTimestamp 1700000000 0)])];
     Firestore.next_id := 1 |}.

(** An update of the meetup's title. *)
Definition rename_meetup : Request :=
  {| method := "PUT";
     query := [("id", JStr "auto0")];
     body := [("title", JStr "Meetup 2"); ("description", JStr "d");
              ("date", JStr "2024-05-01"); ("location", JStr "Hall A");
              ("organizer", JStr "Org"); ("eventType", JStr "social")] |}.

(** A POST without query string or body. *)
Definition post_nothing : Request :=
  {| method := "POST"; query := []; body := [] |}.

(** [GET filterEvents?eventType=social] *)
Definition filter_social : Request :=
  {| method := "GET"; query := [("eventType", JStr "social")]; body := [] |}.

(** ** Envelopes *)

(** [{status: "failure", message, error: {code, details}, timestamp}] *)
Definition failure_envelope (message : string) (code : Z) (details : string)
    (timestamp : Z) : JsVal :=
  JObj [("status", JStr "failure");
        ("message", JStr message);
        ("error", JObj [("code", JNum code); ("details", JStr details)]);
        ("timestamp", JNum timestamp)].

(** [{status: "success", data, timestamp}] *)
Definition success_envelope (data : JsVal) (timestamp : Z) : JsVal :=
  JObj [("status", JStr "success"); ("data", data); ("timestamp", JNum timestamp)].

(** The body fields [createEvent] requires. *)
Definition required_fields : list string :=
  ["title"; "description"; "date"; "location"; "organizer"; "eventType"].

(** ** The update trigger *)

(** [console.error(message, error)]: a line of the function's log, as
    [logger.warn] writes one. *)
Definition console_error {S : Type} (message : string) (error : Exn) : M S unit :=
  fun w =>
    (Ok tt, {| backend := backend w; trace := trace w;
               logs := logs w ++ [(message, error)] |}).

(** [updateOnUpdate], the [onDocumentUpdated("/events/{eventId}")] trigger;
    [eventId] is [event.params.eventId].  The reference is built before the
    [try]. *)
Definition updateOnUpdate {S : Type} (P : Platform S) (eventId : string)
  : M S unit :=
  docRef <- events_doc (JStr eventId) ;;
  try_catch
    (doc_update P docRef [("updatedAt", JServerTimestamp)])
    (fun error =>
       console_error "Error updating `updatedAt` field on update: " error).

(** ** What each endpoint may answer, say and call *)

(** The status codes in the code of each handler. *)
Definition statuses (e : Endpoint) : list Z :=
  match e with
  | CreateEvent => [201; 400; 405; 500]
  | GetAllEvents => [201; 405; 500]
  | GetEventById => [200; 405; 500]
  | UpdateEvent => [200; 500]
  | DeleteEvent => [200; 500]
  | FilterEvents => [200; 400; 500]
  end.




(** The SDK calls in the code of each handler. *)
Definition may_call (e : Endpoint) (c : Call) : bool :=
  match e, c with
  | CreateEvent, CallAdd _ => true
  | GetAllEvents, CallQuery [] => true
  | GetEventById, (CallDoc _ | CallGet _) => true
  | UpdateEvent, (CallDoc _ | CallUpdate _ _) => true
  | DeleteEvent, (CallDoc _ | CallDelete _) => true
  | FilterEvents, CallQuery _ => true
  | _, _ => false
  end.

(** The calls that go to the backend; [doc] only builds a reference. *)
Definition is_remote (c : Call) : bool :=
  match c with
  | CallDoc _ => false
  | CallAdd _ | CallGet _ | CallUpdate _ _ | CallDelete _ | CallQuery _ => true
  end.

(** The properties of an object value. *)
Definition props_of (v : JsVal) : Obj :=
  match v with
  | JObj props => props
  | _ => []
  end.

(** A string without [/]. *)
Fixpoint no_slash (s : string) : bool :=
  match s with
  | EmptyString => true
  | String c r => negb (Ascii.eqb c "/") && no_slash r
  end.

(** The document [createEvent] hands to [add]. *)
Definition event_document (b : Obj) (date' : JsVal) : Obj :=
  [("title", get_prop b "title");
   ("description", get_prop b "description");
   ("date", date');
   ("location", get_prop b "location");
   ("organizer", get_prop b "organizer");
   ("eventType", get_prop b "eventType");
   ("updatedAt", JServerTimestamp)].

(** A field value of a JSON body that is there: neither [undefined] nor the
    server timestamp sentinel. *)
Definition plain (v : JsVal) : bool :=
  match v with
  | JUndefined | JServerTimestamp => false
  | _ => true
  end.

(** The fields [updateEvent] writes. *)
Definition written_fields : list string :=
  ["title"; "description"; "date"; "location"; "organizer"; "eventType";
   "updatedAt"].

(** The data [updateEvent] hands to [update] (lines 195-203). *)
Definition update_data (b : Obj) (date' : JsVal) : Obj :=
  [("title", get_prop b "title");
   ("description", get_prop b "description");
   ("date", date');
   ("location", get_prop b "location");
   ("organizer", get_prop b "organizer");
   ("eventType", get_prop b "eventType");
   ("updatedAt", JServerTimestamp)].

(** ** More sample inputs *)

(** The meetup with a date that [Date.parse] rejects. *)
Definition post_bad_date : Request :=
  {| method := "POST"; query := [];
     body := [("title", JStr "Meetup"); ("description", JStr "d");
              ("date", JStr "tomorrow"); ("location", JStr "Hall A");
              ("organizer", JStr "Org"); ("eventType", JStr "social")] |}.

(** An update of the meetup that names no date. *)
Definition retitle_meetup : Request :=
  {| method := "PUT";
     query := [("id", JStr "auto0")];
     body := [("title", JStr "Meetup 2")] |}.

Definition get_all : Request :=
  {| method := "GET"; query := []; body := [] |}.

Definition get_meetup : Request :=
  {| method := "GET"; query := [("id", JStr "auto0")]; body := [] |}.

Definition delete_meetup : Request :=
  {| method := "DELETE"; query := [("id", JStr "auto0")]; body := [] |}.

Definition filter_social_dated : Request :=
  {| method := "GET";
     query := [("eventType", JStr "social"); ("date", JStr "2024-05-01")];
     body := [] |}.

(** The stored data of the meetup. *)
Definition meetup_data : Obj :=
  [("title", JStr "Meetup"); ("description", JStr "d");
   ("date", JTimestamp 1714521600 0);
   ("location", JStr "Hall A"); ("organizer", JStr "Org");
   ("eventType", JStr "social");
   ("updatedAt", JTimestamp 1700000000 0)].

Ltac unfold_trigger :=
  unfold updateOnUpdate, console_error, events_doc, doc_update, try_catch,
    bind, ret, lift, record, remote, fresh;
  cbv beta; cbn [backend trace logs app].

Ltac unfold_handler :=
  unfold createEvent, getAllEvents, getEventById, updateEvent, deleteEvent,
    filterEvents, createEvent_insert, updateEvent_update, events_doc,
    events_add, doc_get, doc_update, doc_delete, events_get, Timestamp_of,
    Timestamp_now_toMillis, try_catch, bind, respond, ret, lift, record,
    remote, logger_warn, fresh, failure_envelope, success_envelope;
  cbv beta; cbn [backend trace logs app].

(** Case analysis on the innermost tests of the goal. *)
Ltac split_cases :=
  repeat match goal with
         | |- context [match ?x with _ => _ end] =>
             lazymatch x with
             | context [match _ with _ => _ end] => fail
             | _ => destruct x eqn:?
             end
         end.

(** * Properties of the handlers *)

(** ** createEvent *)

(** C8: a request to [createEvent] whose method is not POST is answered 405
    with the failure envelope, and the handler has called nothing on the
    store: the trace is empty and the backend is as it was. *)
Theorem createEvent_wrong_method :
  forall (S : Type) (P : Platform S) (s : S) (req : Request),
    method req <> "POST" ->
    createEvent P req (fresh s) =
      (Ok {| status := 405;
             payload := failure_envelope "Method Not Allowed" 405
                          "Only POST requests are allowed" (Date_now P s) |},
       fresh s).
Proof.
  intros S P s req Hm.
  apply String.eqb_neq in Hm.
  unfold_handler. rewrite Hm. reflexivity.
Qed.

Lemma createEvent_wrong_method_witness :
  createEvent (Firestore.platform sample_parse)
    {| method := "GET"; query := []; body := meetup |} (fresh empty_db) =
    (Ok {| status := 405;
           payload := failure_envelope "Method Not Allowed" 405
                        "Only POST requests are allowed" 1700000000000 |},
     fresh empty_db).
Proof.
  apply (createEvent_wrong_method _ (Firestore.platform sample_parse) empty_db
           {| method := "GET"; query := []; body := meetup |}).
  simpl. discriminate.
Defined.

(** C3: a POST to [createEvent] in which one of the six required body fields
    is absent or falsy is answered 400, and nothing is written: no call
    reaches the store and the backend is as it was. *)
Theorem createEvent_missing_field :
  forall (S : Type) (P : Platform S) (s : S) (req : Request) (field : string),
    method req = "POST" ->
    In field required_fields ->
    truthy (get_prop (body req) field) = false ->
    createEvent P req (fresh s) =
      (Ok {| status := 400;
             payload := failure_envelope "Missing required fields" 400
                          "Please provide all required fields" (Date_now P s) |},
       fresh s).
Proof.
  intros S P s req field Hm Hin Hfalsy.
  unfold_handler. rewrite Hm. cbn [String.eqb Ascii.eqb Bool.eqb negb].
  assert (Hmiss :
    negb (truthy (get_prop (body req) "title"))
    || negb (truthy (get_prop (body req) "description"))
    || negb (truthy (get_prop (body req) "date"))
    || negb (truthy (get_prop (body req) "location"))
    || negb (truthy (get_prop (body req) "organizer"))
    || negb (truthy (get_prop (body req) "eventType")) = true).
  { unfold required_fields in Hin. cbn [In] in Hin.
    repeat (destruct Hin as [Hin | Hin]; [subst field; rewrite Hfalsy; cbn [negb];
      rewrite ?orb_true_r, ?orb_true_l; reflexivity | ]).
    contradiction. }
  rewrite Hmiss. reflexivity.
Qed.

Lemma createEvent_missing_field_witness :
  createEvent (Firestore.platform sample_parse)
    {| method := "POST"; query := [];
       body := [("title", JStr "Meetup"); ("description", JStr "");
                ("date", JStr "2024-05-01"); ("location", JStr "Hall A");
                ("organizer", JStr "Org"); ("eventType", JStr "social")] |}
    (fresh empty_db) =
    (Ok {| status := 400;
           payload := failure_envelope "Missing required fields" 400
                        "Please provide all required fields" 1700000000000 |},
     fresh empty_db).
Proof.
  apply (createEvent_missing_field _ (Firestore.platform sample_parse) empty_db
           _ "description").
  - reflexivity.
  - simpl. auto.
  - reflexivity.
Defined.

(** A [Timestamp] that was constructed is a [Timestamp]. *)
Lemma Timestamp_fromDate_Ok :
  forall (d : JsDate) (v : JsVal),
    Timestamp_fromDate d = Ok v ->
    exists seconds nanos, v = JTimestamp seconds nanos.
Proof.
  intros d v. unfold Timestamp_fromDate, Timestamp_fromMillis, Timestamp_new.
  destruct d as [ms |]; [ | discriminate].
  destruct (negb _); [discriminate | ].
  destruct (negb _); [discriminate | ].
  intros H. injection H as <-. eauto.
Qed.

(** [new Date(undefined)] is an Invalid Date, whatever [Date.parse] does, and
    no [Timestamp] is made of it. *)
Lemma Timestamp_of_undefined :
  forall (parse : string -> JsDate),
    Timestamp_fromDate (new_Date parse JUndefined) = Throw (InvalidArgument "seconds").
Proof. reflexivity. Qed.



(** ** updateEvent *)

(** C2, as the code has it: for an [updateEvent] request whose id is a
    document path and whose date converts to a [Timestamp], the handler calls
    [doc(id)] and [update] and nothing else, so it never looks whether the
    document exists; the answer is 200 with [{message: "Event updated"}] when
    [update] resolves and the 500 envelope when [update] throws. *)
Theorem updateEvent_outcome :
  forall (S : Type) (P : Platform S) (s : S) (req : Request) (ref : DocRef)
         (date' : JsVal),
    collection_doc (get_prop (query req) "id") = Ok ref ->
    Timestamp_fromDate (new_Date (Date_parse P) (get_prop (body req) "date")) =
      Ok date' ->
    exists (resp : Response) (w' : World S),
      updateEvent P req (fresh s) = (Ok resp, w')
      /\ trace w' = [CallDoc (get_prop (query req) "id");
                     CallUpdate ref (update_data (body req) date')]
      /\ backend w' =
           snd (remote_update P ref (update_data (body req) date') s)
      /\ resp =
           match fst (remote_update P ref (update_data (body req) date') s) with
           | Ok _ =>
               {| status := 200;
                  payload := JObj [("message", JStr "Event updated")] |}
           | Throw _ =>
               {| status := 500;
                  payload := failure_envelope "Error updating event" 500
                               "Unable to update event" (Date_now P s) |}
           end.
Proof.
  intros S P s req ref date' Href Hts.
  unfold_handler. unfold update_data. rewrite Href, Hts.
  cbn [backend trace logs app].
  destruct (remote_update P ref _ s) as [[[] | error] s1]; cbn [fst snd];
    do 2 eexists; repeat split.
Qed.

(** The update of the stored meetup is answered 200; the same request on a
    store without the document is answered 500, because [update] rejects a
    missing document there. *)
Lemma updateEvent_outcome_witness :
  (exists (resp : Response) (w' : World Firestore.State),
     updateEvent (Firestore.platform sample_parse) rename_meetup
       (fresh meetup_db) = (Ok resp, w')
     /\ trace w' =
          [CallDoc (JStr "auto0");
           CallUpdate {| ref_path := ["events"; "auto0"] |}
             (update_data (body rename_meetup) (JTimestamp 1714521600 0))]
     /\ backend w' =
          {| Firestore.clock := 1700000000002;
             Firestore.docs :=
               [(["events"; "auto0"],
                 [("title", JStr "Meetup 2"); ("description", JStr "d");
                  ("date", JTimestamp 1714521600 0);
                  ("location", JStr "Hall A"); ("organizer", JStr "Org");
                  ("eventType", JStr "social");
                  ("updatedAt", JTimestamp 1700000000 1000000)])];
             Firestore.next_id := 1 |}
     /\ resp = {| status := 200;
                  payload := JObj [("message", JStr "Event updated")] |})
  /\ (exists (resp : Response) (w' : World Firestore.State),
        updateEvent (Firestore.platform sample_parse) rename_meetup
          (fresh empty_db) = (Ok resp, w')
        /\ trace w' =
             [CallDoc (JStr "auto0");
              CallUpdate {| ref_path := ["events"; "auto0"] |}
                (update_data (body rename_meetup) (JTimestamp 1714521600 0))]
        /\ backend w' = Firestore.tick empty_db
        /\ resp = {| status := 500;
                     payload := failure_envelope "Error updating event" 500
                                  "Unable to update event" 1700000000000 |}).
Proof.
  split.
  - apply (updateEvent_outcome _ (Firestore.platform sample_parse) meetup_db
             rename_meetup {| ref_path := ["events"; "auto0"] |}
             (JTimestamp 1714521600 0)); reflexivity.
  - apply (updateEvent_outcome _ (Firestore.platform sample_parse) empty_db
             rename_meetup {| ref_path := ["events"; "auto0"] |}
             (JTimestamp 1714521600 0)); reflexivity.
Defined.

(** C2, as stated, fails when the date does not convert: the request below
    names the stored meetup and gives no date; [update] is not called, so it
    does not throw, and the answer is 500, not 200. *)
Lemma updateEvent_no_date :
  Firestore.find_doc ["events"; "auto0"] (Firestore.docs meetup_db) =
    Some meetup_data
  /\ get_prop (body retitle_meetup) "date" = JUndefined
  /\ updateEvent (Firestore.platform sample_parse) retitle_meetup
       (fresh meetup_db) =
       (Ok {| status := 500;
              payload := failure_envelope "Error updating event" 500
                           "Unable to update event" 1700000000001 |},
        {| backend := meetup_db;
           trace := [CallDoc (JStr "auto0")];
           logs := [("Error updating event: ", InvalidArgument "seconds")] |}).
Proof. repeat split. Qed.

(** When the store call throws, the error is logged and the answer is the 500
    envelope. *)
Lemma updateEvent_failed :
  forall (S : Type) (P : Platform S) (s : S) (req : Request) (e : Exn)
         (w' : World S),
    updateEvent_update P req (fresh s) = (Throw e, w') ->
    updateEvent P req (fresh s) =
      (Ok {| status := 500;
             payload := failure_envelope "Error updating event" 500
                          "Unable to update event" (Date_now P s) |},
       {| backend := backend w'; trace := trace w';
          logs := logs w' ++ [("Error updating event: ", e)] |}).
Proof.
  intros S P s req e w' Hup.
  unfold updateEvent, bind, try_catch, Timestamp_now_toMillis, respond, ret,
    logger_warn.
  fold (fresh s). unfold bind in Hup. rewrite Hup. reflexivity.
Qed.

(** On the reference backend [update] rejects a document that does not
    exist, and the handler answers 500. *)
Lemma updateEvent_missing_document :
  forall (parse : string -> JsDate) (s : Firestore.State) (req : Request)
         (ref : DocRef) (ts : JsVal),
    collection_doc (get_prop (query req) "id") = Ok ref ->
    Timestamp_fromDate (new_Date parse (get_prop (body req) "date")) = Ok ts ->
    Firestore.find_doc (ref_path ref) (Firestore.docs s) = None ->
    exists w',
      updateEvent (Firestore.platform parse) req (fresh s) =
        (Ok {| status := 500;
               payload := failure_envelope "Error updating event" 500
                            "Unable to update event" (Firestore.clock s) |},
         w')
      /\ Firestore.docs (backend w') = Firestore.docs s.
Proof.
  intros parse s req ref ts Href Hts Hnone.
  unfold_handler. cbn [Date_parse remote_update Date_now Firestore.platform].
  rewrite Href, Hts. cbn [backend trace logs app].
  unfold Firestore.update. rewrite Hnone.
  destruct (Firestore.has_undefined _); eexists; split; reflexivity.
Qed.

(** ** getEventById *)

(** C4, as the code has it: a GET to [getEventById] whose id is a document
    path and for which the store reports that no document has the id
    ([!eventDoc.exists]) is answered 200 with the empty object as data, not
    404. *)
Theorem getEventById_missing :
  forall (S : Type) (P : Platform S) (s s' : S) (req : Request) (ref : DocRef),
    method req = "GET" ->
    collection_doc (get_prop (query req) "id") = Ok ref ->
    remote_get P ref s = (Ok None, s') ->
    getEventById P req (fresh s) =
      (Ok {| status := 200;
             payload := success_envelope (JObj []) (Date_now P s) |},
       {| backend := s';
          trace := [CallDoc (get_prop (query req) "id"); CallGet ref];
          logs := [] |}).
Proof.
  intros S P s s' req ref Hm Href Hget.
  unfold_handler. rewrite Hm. cbn [String.eqb Ascii.eqb Bool.eqb negb].
  rewrite Href. cbn [backend trace logs app]. rewrite Hget. reflexivity.
Qed.

Lemma getEventById_missing_witness :
  getEventById (Firestore.platform sample_parse)
    {| method := "GET"; query := [("id", JStr "nobody")]; body := [] |}
    (fresh meetup_db) =
    (Ok {| status := 200;
           payload := success_envelope (JObj []) 1700000000001 |},
     {| backend := Firestore.tick meetup_db;
        trace := [CallDoc (JStr "nobody");
                  CallGet {| ref_path := ["events"; "nobody"] |}];
        logs := [] |}).
Proof.
  apply (getEventById_missing _ (Firestore.platform sample_parse) meetup_db
           (Firestore.tick meetup_db)
           {| method := "GET"; query := [("id", JStr "nobody")]; body := [] |}
           {| ref_path := ["events"; "nobody"] |}).
  - reflexivity.
  - reflexivity.
  - reflexivity.
Defined.

(** C4, as stated, fails for an id that is not a document path: the id
    below matches none of the stored documents, [doc] rejects it (the path
    [events/auto0/sub] has three segments), and the GET is answered 500, not
    200. *)
Lemma getEventById_bad_path :
  map fst (Firestore.docs meetup_db) = [["events"; "auto0"]]
  /\ getEventById (Firestore.platform sample_parse)
       {| method := "GET"; query := [("id", JStr "auto0/sub")]; body := [] |}
       (fresh meetup_db) =
       (Ok {| status := 500;
              payload := failure_envelope "Error fetching event" 500
                           "Unable to get event" 1700000000001 |},
        {| backend := meetup_db;
           trace := [CallDoc (JStr "auto0/sub")];
           logs := [("Error fetching event: ", InvalidArgument "documentPath")] |}).
Proof. split; reflexivity. Qed.

(** No request to [getEventById] is answered 404: the status is 200, 405 or
    500. *)
Lemma getEventById_status :
  forall (S : Type) (P : Platform S) (w w' : World S) (req : Request)
         (resp : Response),
    getEventById P req w = (Ok resp, w') ->
    status resp = 200 \/ status resp = 405 \/ status resp = 500.
Proof.
  intros S P w w' req resp. unfold_handler.
  destruct (negb _).
  - intros H. injection H as <- _. auto.
  - destruct (collection_doc _) as [ref | e].
    + cbn [backend trace logs]. destruct (remote_get P ref _) as [[o | e] s1];
        intros H; injection H as <- _; auto.
    + intros H. injection H as <- _. auto.
Qed.

(** On the reference backend the store reports a missing document exactly
    when no document is stored at the path. *)
Lemma Firestore_get_missing :
  forall (parse : string -> JsDate) (s : Firestore.State) (ref : DocRef),
    Firestore.find_doc (ref_path ref) (Firestore.docs s) = None ->
    remote_get (Firestore.platform parse) ref s = (Ok None, Firestore.tick s).
Proof.
  intros parse s ref H. cbn [remote_get Firestore.platform].
  unfold Firestore.get. rewrite H. reflexivity.
Qed.

(** ** deleteEvent *)

Lemma remove_doc_missing :
  forall (p : Path) (l : list (Path * Obj)),
    Firestore.find_doc p l = None -> Firestore.remove_doc p l = l.
Proof.
  intros p l. unfold Firestore.find_doc, Firestore.remove_doc.
  induction l as [ | d l IH]; cbn [find filter]; [reflexivity | ].
  destruct (Path_eqb (fst d) p); cbn [negb]; [discriminate | ].
  intros H. rewrite (IH H). reflexivity.
Qed.

Lemma find_doc_removed :
  forall (p : Path) (l : list (Path * Obj)),
    Firestore.find_doc p (Firestore.remove_doc p l) = None.
Proof.
  intros p l. unfold Firestore.find_doc, Firestore.remove_doc.
  induction l as [ | d l IH]; cbn [find filter]; [reflexivity | ].
  destruct (Path_eqb (fst d) p) eqn:Hd; cbn [negb]; [exact IH | ].
  cbn [find]. rewrite Hd. exact IH.
Qed.

(** Whatever the backend, a [deleteEvent] whose [delete] resolves is
    answered 200; the handler reads nothing beforehand. *)
Lemma deleteEvent_deleted :
  forall (S : Type) (P : Platform S) (s s' : S) (req : Request) (ref : DocRef),
    collection_doc (get_prop (query req) "id") = Ok ref ->
    remote_delete P ref s = (Ok tt, s') ->
    deleteEvent P req (fresh s) =
      (Ok {| status := 200;
             payload := success_envelope
                          (JObj [("message", JStr "Event deleted")])
                          (Date_now P s) |},
       {| backend := s';
          trace := [CallDoc (get_prop (query req) "id"); CallDelete ref];
          logs := [] |}).
Proof.
  intros S P s s' req ref Href Hdel.
  unfold_handler. rewrite Href. cbn [backend trace logs app].
  rewrite Hdel. reflexivity.
Qed.

(** C5, as the code has it: on the reference backend, a [deleteEvent] whose
    id is a document path that names no stored document is answered 200 with
    [{message: "Event deleted"}] in the success envelope, and the documents of
    the store are what they were. *)
Theorem deleteEvent_missing :
  forall (parse : string -> JsDate) (s : Firestore.State) (req : Request)
         (ref : DocRef),
    collection_doc (get_prop (query req) "id") = Ok ref ->
    Firestore.find_doc (ref_path ref) (Firestore.docs s) = None ->
    exists w' : World Firestore.State,
      deleteEvent (Firestore.platform parse) req (fresh s) =
        (Ok {| status := 200;
               payload := success_envelope
                            (JObj [("message", JStr "Event deleted")])
                            (Firestore.clock s) |},
         w')
      /\ Firestore.docs (backend w') = Firestore.docs s
      /\ trace w' = [CallDoc (get_prop (query req) "id"); CallDelete ref].
Proof.
  intros parse s req ref Href Hnone.
  pose proof (deleteEvent_deleted _ (Firestore.platform parse) s
                (snd (Firestore.delete ref s)) req ref Href eq_refl) as Hrun.
  eexists. split; [exact Hrun | ].
  cbn [backend trace snd Firestore.delete Firestore.docs].
  split; [ | reflexivity].
  apply remove_doc_missing, Hnone.
Qed.

Lemma deleteEvent_missing_witness :
  exists w' : World Firestore.State,
    deleteEvent (Firestore.platform sample_parse)
      {| method := "DELETE"; query := [("id", JStr "nobody")]; body := [] |}
      (fresh meetup_db) =
      (Ok {| status := 200;
             payload := success_envelope
                          (JObj [("message", JStr "Event deleted")])
                          1700000000001 |},
       w')
    /\ Firestore.docs (backend w') = Firestore.docs meetup_db
    /\ trace w' = [CallDoc (JStr "nobody");
                   CallDelete {| ref_path := ["events"; "nobody"] |}].
Proof.
  apply (deleteEvent_missing sample_parse meetup_db
           {| method := "DELETE"; query := [("id", JStr "nobody")]; body := [] |}
           {| ref_path := ["events"; "nobody"] |}).
  - reflexivity.
  - reflexivity.
Defined.

(** C5, as stated, fails for an id that is not a document path: the id
    below matches none of the stored documents, [doc] rejects it (it contains
    [//]), and the request is answered 500, not 200. *)
Lemma deleteEvent_bad_path :
  map fst (Firestore.docs meetup_db) = [["events"; "auto0"]]
  /\ deleteEvent (Firestore.platform sample_parse)
       {| method := "DELETE"; query := [("id", JStr "auto0//x")]; body := [] |}
       (fresh meetup_db) =
       (Ok {| status := 500;
              payload := failure_envelope "Error deleting event" 500
                           "Unable to delete event" 1700000000001 |},
        {| backend := meetup_db;
           trace := [CallDoc (JStr "auto0//x")];
           logs := [("Error deleting event: ", InvalidArgument "documentPath")] |}).
Proof. split; reflexivity. Qed.

(** Deleting twice: on the reference backend both requests are answered 200,
    and the second leaves the documents as the first left them. *)
Lemma deleteEvent_twice :
  forall (parse : string -> JsDate) (s : Firestore.State) (req : Request)
         (ref : DocRef),
    collection_doc (get_prop (query req) "id") = Ok ref ->
    exists (r1 r2 : Response) (w1 w2 : World Firestore.State),
      deleteEvent (Firestore.platform parse) req (fresh s) = (Ok r1, w1)
      /\ deleteEvent (Firestore.platform parse) req (fresh (backend w1)) =
           (Ok r2, w2)
      /\ status r1 = 200 /\ status r2 = 200
      /\ Firestore.docs (backend w2) = Firestore.docs (backend w1).
Proof.
  intros parse s req ref Href.
  pose proof (deleteEvent_deleted _ (Firestore.platform parse) s
                (snd (Firestore.delete ref s)) req ref Href eq_refl) as H1.
  pose proof (deleteEvent_deleted _ (Firestore.platform parse)
                (snd (Firestore.delete ref s))
                (snd (Firestore.delete ref (snd (Firestore.delete ref s))))
                req ref Href eq_refl) as H2.
  do 4 eexists. split; [exact H1 | ]. cbn [backend]. split; [exact H2 | ].
  cbn [status backend snd Firestore.delete Firestore.docs].
  repeat split.
  apply remove_doc_missing, find_doc_removed.
Qed.

(** ** getAllEvents *)

(** C6, as the code has it: [getAllEvents] reads the collection whatever the
    method, and that read is its only call.  A request that is not a GET is
    answered 405 when the read returns, and 500 when the read throws. *)
Theorem getAllEvents_reads_first :
  forall (S : Type) (P : Platform S) (s : S) (req : Request),
    exists (resp : Response) (w' : World S),
      getAllEvents P req (fresh s) = (Ok resp, w')
      /\ trace w' = [CallQuery []]
      /\ backend w' = snd (remote_query P [] s)
      /\ (method req <> "GET" ->
          resp =
            match fst (remote_query P [] s) with
            | Ok _ =>
                {| status := 405;
                   payload := failure_envelope "Method Not Allowed" 405
                                "Only GET requests are allowed" (Date_now P s) |}
            | Throw _ =>
                {| status := 500;
                   payload := failure_envelope "Error fetching all event" 500
                                "Unable to get all events" (Date_now P s) |}
            end).
Proof.
  intros S P s req. unfold_handler.
  destruct (remote_query P [] s) as [[snapshot | e] s1]; cbn [fst snd].
  - destruct (negb (String.eqb (method req) "GET")) eqn:Hm.
    + do 2 eexists. repeat split.
    + do 2 eexists. repeat split. intros Hne.
      apply String.eqb_neq in Hne. rewrite Hne in Hm. discriminate.
  - do 2 eexists. repeat split.
Qed.

(** C6, as stated, fails when the read throws: the request below is not a
    GET, the read was issued, and the answer is 500, not 405. *)
Lemma getAllEvents_outage_non_GET :
  method post_nothing <> "GET"
  /\ getAllEvents (Outage.platform sample_parse) post_nothing
       (fresh 1700000000000) =
       (Ok {| status := 500;
              payload := failure_envelope "Error fetching all event" 500
                           "Unable to get all events" 1700000000000 |},
        {| backend := 1700000000001;
           trace := [CallQuery []];
           logs := [("Error fetching events: ", Unavailable)] |}).
Proof. split; [discriminate | reflexivity]. Qed.

Lemma getAllEvents_reads_first_witness :
  exists (resp : Response) (w' : World Firestore.State),
    getAllEvents (Firestore.platform sample_parse) post_nothing (fresh meetup_db)
      = (Ok resp, w')
    /\ trace w' = [CallQuery []]
    /\ backend w' = Firestore.tick meetup_db
    /\ (method post_nothing <> "GET" ->
        resp =
          {| status := 405;
             payload := failure_envelope "Method Not Allowed" 405
                          "Only GET requests are allowed" 1700000000001 |}).
Proof.
  exact (getAllEvents_reads_first _ (Firestore.platform sample_parse)
           meetup_db post_nothing).
Defined.

(** ** Failure envelopes *)

(** C9: each of the six handlers answers every request, and an answer with
    status 400, 405 or 500 carries
    [{status: "failure", message, error: {code, details}, timestamp}], where
    [code] is the status and [timestamp] is the clock as it was read at the
    start of the request. *)
Theorem failure_response_shape :
  forall (S : Type) (P : Platform S) (e : Endpoint) (s : S) (req : Request),
    exists (resp : Response) (w' : World S),
      handle P e req (fresh s) = (Ok resp, w')
      /\ (status resp = 400 \/ status resp = 405 \/ status resp = 500 ->
          exists message details : string,
            payload resp =
              failure_envelope message (status resp) details (Date_now P s)).
Proof.
  intros S P e s req.
  destruct e; cbn [handle]; unfold_handler; split_cases;
    do 2 eexists; (split; [reflexivity | ]); cbn [status payload];
    intros Hst;
    solve [ do 2 eexists; reflexivity
          | exfalso; destruct Hst as [Hst | [Hst | Hst]]; discriminate Hst ].
Qed.

(** The three reading handlers issue no write, whatever they answer. *)
Lemma read_handlers_do_not_write :
  forall (S : Type) (P : Platform S) (e : Endpoint) (s : S) (req : Request)
         (resp : Response) (w' : World S),
    e = GetAllEvents \/ e = GetEventById \/ e = FilterEvents ->
    handle P e req (fresh s) = (Ok resp, w') ->
    forallb (fun c => negb (is_write c)) (trace w') = true.
Proof.
  intros S P e s req resp w' He.
  destruct He as [-> | [-> | ->]]; cbn [handle]; unfold_handler; split_cases;
    intros H; injection H as _ <-; reflexivity.
Qed.

(** ** Requests without an id *)

(** C10, as the code has it: without [id] in the query string, a GET to
    [getEventById] and any request to [updateEvent] or [deleteEvent] call
    [doc(undefined)], which throws, and are answered with the 500 envelope;
    the backend is not reached.  A [getEventById] request that is not a GET
    is answered 405 before the id is read. *)
Theorem missing_id :
  forall (S : Type) (P : Platform S) (s : S) (req : Request),
    get_prop (query req) "id" = JUndefined ->
    (method req = "GET" ->
     getEventById P req (fresh s) =
       (Ok {| status := 500;
              payload := failure_envelope "Error fetching event" 500
                           "Unable to get event" (Date_now P s) |},
        {| backend := s;
           trace := [CallDoc JUndefined];
           logs := [("Error fetching event: ", InvalidArgument "documentPath")] |}))
    /\ (method req <> "GET" ->
        getEventById P req (fresh s) =
          (Ok {| status := 405;
                 payload := failure_envelope "Method Not Allowed" 405
                              "Only GET requests are allowed" (Date_now P s) |},
           fresh s))
    /\ updateEvent P req (fresh s) =
         (Ok {| status := 500;
                payload := failure_envelope "Error updating event" 500
                             "Unable to update event" (Date_now P s) |},
          {| backend := s;
             trace := [CallDoc JUndefined];
             logs := [("Error updating event: ", InvalidArgument "documentPath")] |})
    /\ deleteEvent P req (fresh s) =
         (Ok {| status := 500;
                payload := failure_envelope "Error deleting event" 500
                             "Unable to delete event" (Date_now P s) |},
          {| backend := s;
             trace := [CallDoc JUndefined];
             logs := [("Error deleting event: ", InvalidArgument "documentPath")] |}).
Proof.
  intros S P s req Hid. repeat split.
  - intros Hm. unfold_handler. rewrite Hm, Hid. reflexivity.
  - intros Hm. apply String.eqb_neq in Hm. unfold_handler. rewrite Hm.
    reflexivity.
  - unfold_handler. rewrite Hid. reflexivity.
  - unfold_handler. rewrite Hid. reflexivity.
Qed.

(** C10, as stated, fails for [getEventById]: the request below has no id and
    is answered 405, and the trace shows that the store was not called. *)
Lemma getEventById_no_id_non_GET :
  get_prop (query post_nothing) "id" = JUndefined
  /\ getEventById (Firestore.platform sample_parse) post_nothing
       (fresh meetup_db) =
       (Ok {| status := 405;
              payload := failure_envelope "Method Not Allowed" 405
                           "Only GET requests are allowed" 1700000000001 |},
        {| backend := meetup_db; trace := []; logs := [] |}).
Proof. split; reflexivity. Qed.

Lemma missing_id_witness :
  getEventById (Firestore.platform sample_parse)
    {| method := "GET"; query := []; body := [] |} (fresh meetup_db) =
    (Ok {| status := 500;
           payload := failure_envelope "Error fetching event" 500
                        "Unable to get event" 1700000000001 |},
     {| backend := meetup_db;
        trace := [CallDoc JUndefined];
        logs := [("Error fetching event: ", InvalidArgument "documentPath")] |}).
Proof.
  refine (proj1 (missing_id _ (Firestore.platform sample_parse) meetup_db
                   {| method := "GET"; query := []; body := [] |} _) _);
    reflexivity.
Defined.

(** ** filterEvents *)

(** [filterEvents] converts the [date] of the query on line 275, before it
    looks whether there is one.  With an [eventType] and no [date] the
    conversion throws, no query is run, and the answer is 500. *)
Lemma filterEvents_without_date :
  forall (S : Type) (P : Platform S) (s : S) (req : Request),
    truthy (get_prop (query req) "eventType") = true ->
    get_prop (query req) "date" = JUndefined ->
    filterEvents P req (fresh s) =
      (Ok {| status := 500;
             payload := failure_envelope "Error filtering event" 500
                          "Unable to filter event" (Date_now P s) |},
       {| backend := s;
          trace := [];
          logs := [("Error filtering event: ", InvalidArgument "seconds")] |}).
Proof.
  intros S P s req Htype Hdate.
  unfold_handler. rewrite Htype, Hdate. reflexivity.
Qed.

(** With a [date] that converts, the query is run with the filters the
    request names and its documents are returned as they are. *)
Lemma filterEvents_with_date :
  forall (S : Type) (P : Platform S) (s s' : S) (req : Request)
         (dateFilter : JsVal) (snapshot : list (string * Obj)),
    truthy (get_prop (query req) "date") = true ->
    Timestamp_fromDate
      (new_Date (Date_parse P) (get_prop (query req) "date")) = Ok dateFilter ->
    let filters :=
      ((if truthy (get_prop (query req) "eventType")
        then [("eventType", get_prop (query req) "eventType")] else [])
       ++ [("date", dateFilter)])%list in
    remote_query P filters s = (Ok snapshot, s') ->
    filterEvents P req (fresh s) =
      (Ok {| status := 200;
             payload := JArr (map (fun doc => with_id (fst doc) (snd doc))
                                snapshot) |},
       {| backend := s'; trace := [CallQuery filters]; logs := [] |}).
Proof.
  intros S P s s' req dateFilter snapshot Hdate Hts filters Hq.
  subst filters. revert Hq. unfold_handler. unfold where_eq.
  rewrite Hdate, Hts, andb_false_r.
  destruct (truthy (get_prop (query req) "eventType"));
    cbn [app backend trace logs]; unfold Filter; intros ->; reflexivity.
Qed.

(** C1 on the code: the meetup is created with [eventType] "social" and id
    "auto0"; the request [filterEvents?eventType=social] that follows is
    answered 500 with the failure envelope, not 200 with an array. *)
Lemma filterEvents_social_after_create :
  createEvent (Firestore.platform sample_parse) post_meetup (fresh empty_db) =
    (Ok {| status := 201;
           payload :=
             success_envelope
               (JObj [("id", JStr "auto0");
                      ("title", JStr "Meetup");
                      ("description", JStr "d");
                      ("date", JStr "2024-05-01");
                      ("location", JStr "Hall A");
                      ("organizer", JStr "Org");
                      ("eventType", JStr "social")])
               1700000000000 |},
     {| backend := meetup_db;
        trace := [CallAdd [("title", JStr "Meetup"); ("description", JStr "d");
                           ("date", JTimestamp 1714521600 0);
                           ("location", JStr "Hall A"); ("organizer", JStr "Org");
                           ("eventType", JStr "social");
                           ("updatedAt", JServerTimestamp)]];
        logs := [] |})
  /\ filterEvents (Firestore.platform sample_parse) filter_social
       (fresh meetup_db) =
       (Ok {| status := 500;
              payload := failure_envelope "Error filtering event" 500
                           "Unable to filter event" 1700000000001 |},
        {| backend := meetup_db;
           trace := [];
           logs := [("Error filtering event: ", InvalidArgument "seconds")] |}).
Proof. split; reflexivity. Qed.

(** The same search with the date of the meetup added: the conversion
    succeeds, the query is run and the meetup is found. *)
Example filterEvents_social_with_date :
  filterEvents (Firestore.platform sample_parse)
    {| method := "GET";
       query := [("eventType", JStr "social"); ("date", JStr "2024-05-01")];
       body := [] |}
    (fresh meetup_db) =
    (Ok {| status := 200;
           payload :=
             JArr [JObj [("id", JStr "auto0");
                         ("title", JStr "Meetup"); ("description", JStr "d");
                         ("date", JTimestamp 1714521600 0);
                         ("location", JStr "Hall A"); ("organizer", JStr "Org");
                         ("eventType", JStr "social");
                         ("updatedAt", JTimestamp 1700000000 0)]] |},
     {| backend := Firestore.tick meetup_db;
        trace := [CallQuery [("eventType", JStr "social");
                             ("date", JTimestamp 1714521600 0)]];
        logs := [] |}).
Proof. reflexivity. Qed.

(** Without any filter the answer is 400 and the store is not called. *)
Lemma filterEvents_no_filter :
  forall (S : Type) (P : Platform S) (s : S) (req : Request),
    truthy (get_prop (query req) "eventType") = false ->
    truthy (get_prop (query req) "date") = false ->
    filterEvents P req (fresh s) =
      (Ok {| status := 400;
             payload := failure_envelope "Missing required fields" 400
                          "Please provide at least one filter" (Date_now P s) |},
       fresh s).
Proof.
  intros S P s req Htype Hdate.
  unfold_handler. rewrite Htype, Hdate. reflexivity.
Qed.

(** * Further properties *)

(** ** Successful reads *)

(** [getAllEvents], GET: when the read returns, the answer is 201 and lists
    one entry per document, in the order the store gave them, each with its
    id; the read is the only call. *)
Theorem getAllEvents_listed :
  forall (S : Type) (P : Platform S) (s s' : S) (req : Request)
         (snapshot : list (string * Obj)),
    method req = "GET" ->
    remote_query P [] s = (Ok snapshot, s') ->
    getAllEvents P req (fresh s) =
      (Ok {| status := 201;
             payload :=
               success_envelope
                 (JObj [("events",
                         JArr (map (fun doc => with_id (fst doc) (snd doc))
                                 snapshot))])
                 (Date_now P s) |},
       {| backend := s'; trace := [CallQuery []]; logs := [] |}).
Proof.
  intros S P s s' req snapshot Hm Hq.
  unfold_handler. rewrite Hq, Hm. reflexivity.
Qed.

Lemma getAllEvents_listed_witness :
  getAllEvents (Firestore.platform sample_parse) get_all (fresh meetup_db) =
    (Ok {| status := 201;
           payload :=
             success_envelope
               (JObj [("events", JArr [JObj (("id", JStr "auto0") :: meetup_data)])])
               1700000000001 |},
     {| backend := Firestore.tick meetup_db;
        trace := [CallQuery []]; logs := [] |}).
Proof.
  apply (getAllEvents_listed _ (Firestore.platform sample_parse) meetup_db
           (Firestore.tick meetup_db) get_all [("auto0", meetup_data)]).
  - reflexivity.
  - reflexivity.
Defined.

(** [getEventById], GET: when the store has the document, the answer is 200
    with the id of the reference followed by the fields of the document. *)
Theorem getEventById_found :
  forall (S : Type) (P : Platform S) (s s' : S) (req : Request) (ref : DocRef)
         (data : Obj),
    method req = "GET" ->
    collection_doc (get_prop (query req) "id") = Ok ref ->
    remote_get P ref s = (Ok (Some data), s') ->
    getEventById P req (fresh s) =
      (Ok {| status := 200;
             payload := success_envelope (with_id (ref_id ref) data)
                          (Date_now P s) |},
       {| backend := s';
          trace := [CallDoc (get_prop (query req) "id"); CallGet ref];
          logs := [] |}).
Proof.
  intros S P s s' req ref data Hm Href Hget.
  unfold_handler. rewrite Hm. cbn [String.eqb Ascii.eqb Bool.eqb negb].
  rewrite Href. cbn [backend trace logs app]. rewrite Hget. reflexivity.
Qed.

Lemma getEventById_found_witness :
  getEventById (Firestore.platform sample_parse) get_meetup (fresh meetup_db) =
    (Ok {| status := 200;
           payload := success_envelope
                        (JObj (("id", JStr "auto0") :: meetup_data))
                        1700000000001 |},
     {| backend := Firestore.tick meetup_db;
        trace := [CallDoc (JStr "auto0");
                  CallGet {| ref_path := ["events"; "auto0"] |}];
        logs := [] |}).
Proof.
  apply (getEventById_found _ (Firestore.platform sample_parse) meetup_db
           (Firestore.tick meetup_db) get_meetup
           {| ref_path := ["events"; "auto0"] |} meetup_data).
  - reflexivity.
  - reflexivity.
  - reflexivity.
Defined.

(** ** Dates that do not convert *)

(** [createEvent]: a POST with the six fields truthy whose date does not
    convert is answered 500, not 400; [add] is not called and the error is
    logged. *)
Theorem createEvent_bad_date :
  forall (S : Type) (P : Platform S) (s : S) (req : Request) (e : Exn),
    method req = "POST" ->
    (forall field, In field required_fields ->
                   truthy (get_prop (body req) field) = true) ->
    Timestamp_fromDate (new_Date (Date_parse P) (get_prop (body req) "date")) =
      Throw e ->
    createEvent P req (fresh s) =
      (Ok {| status := 500;
             payload := failure_envelope "Error creating event" 500
                          "Unable to create new event" (Date_now P s) |},
       {| backend := s; trace := []; logs := [("Error adding event: ", e)] |}).
Proof.
  intros S P s req e Hm Hall Hts.
  unfold_handler. rewrite Hm. cbn [String.eqb Ascii.eqb Bool.eqb negb].
  rewrite !Hall by (unfold required_fields; cbn [In]; tauto).
  cbn [negb orb]. rewrite Hts. reflexivity.
Qed.

Lemma createEvent_bad_date_witness :
  createEvent (Firestore.platform sample_parse) post_bad_date (fresh empty_db) =
    (Ok {| status := 500;
           payload := failure_envelope "Error creating event" 500
                        "Unable to create new event" 1700000000000 |},
     {| backend := empty_db; trace := [];
        logs := [("Error adding event: ", InvalidArgument "seconds")] |}).
Proof.
  apply (createEvent_bad_date _ (Firestore.platform sample_parse) empty_db
           post_bad_date (InvalidArgument "seconds")).
  - reflexivity.
  - intros field Hin. unfold required_fields in Hin. cbn [In] in Hin.
    repeat (destruct Hin as [<- | Hin]; [reflexivity | ]). contradiction.
  - reflexivity.
Defined.

(** [updateEvent]: when the date of the body does not convert (none is
    given, say), the answer is 500 and [update] is not called: the only call
    is [doc]. *)
Theorem updateEvent_bad_date :
  forall (S : Type) (P : Platform S) (s : S) (req : Request) (ref : DocRef)
         (e : Exn),
    collection_doc (get_prop (query req) "id") = Ok ref ->
    Timestamp_fromDate (new_Date (Date_parse P) (get_prop (body req) "date")) =
      Throw e ->
    updateEvent P req (fresh s) =
      (Ok {| status := 500;
             payload := failure_envelope "Error updating event" 500
                          "Unable to update event" (Date_now P s) |},
       {| backend := s;
          trace := [CallDoc (get_prop (query req) "id")];
          logs := [("Error updating event: ", e)] |}).
Proof.
  intros S P s req ref e Href Hts.
  unfold_handler. rewrite Href, Hts. reflexivity.
Qed.

Lemma updateEvent_bad_date_witness :
  updateEvent (Firestore.platform sample_parse) retitle_meetup (fresh meetup_db) =
    (Ok {| status := 500;
           payload := failure_envelope "Error updating event" 500
                        "Unable to update event" 1700000000001 |},
     {| backend := meetup_db;
        trace := [CallDoc (JStr "auto0")];
        logs := [("Error updating event: ", InvalidArgument "seconds")] |}).
Proof.
  apply (updateEvent_bad_date _ (Firestore.platform sample_parse) meetup_db
           retitle_meetup {| ref_path := ["events"; "auto0"] |}
           (InvalidArgument "seconds")).
  - reflexivity.
  - reflexivity.
Defined.

(** [filterEvents]: with a filter given, a date that does not convert (also
    when none is given) is answered 500, and no query is run. *)
Theorem filterEvents_date_rejected :
  forall (S : Type) (P : Platform S) (s : S) (req : Request) (e : Exn),
    truthy (get_prop (query req) "eventType")
    || truthy (get_prop (query req) "date") = true ->
    Timestamp_fromDate (new_Date (Date_parse P) (get_prop (query req) "date")) =
      Throw e ->
    filterEvents P req (fresh s) =
      (Ok {| status := 500;
             payload := failure_envelope "Error filtering event" 500
                          "Unable to filter event" (Date_now P s) |},
       {| backend := s; trace := [];
          logs := [("Error filtering event: ", e)] |}).
Proof.
  intros S P s req e Hsome Hts.
  unfold_handler. rewrite Hts.
  destruct (truthy (get_prop (query req) "eventType"));
    destruct (truthy (get_prop (query req) "date"));
    try discriminate Hsome; reflexivity.
Qed.

Lemma filterEvents_date_rejected_witness :
  filterEvents (Firestore.platform sample_parse)
    {| method := "GET"; query := [("date", JStr "tomorrow")]; body := [] |}
    (fresh meetup_db) =
    (Ok {| status := 500;
           payload := failure_envelope "Error filtering event" 500
                        "Unable to filter event" 1700000000001 |},
     {| backend := meetup_db; trace := [];
        logs := [("Error filtering event: ", InvalidArgument "seconds")] |}).
Proof.
  apply (filterEvents_date_rejected _ (Firestore.platform sample_parse)
           meetup_db
           {| method := "GET"; query := [("date", JStr "tomorrow")]; body := [] |}
           (InvalidArgument "seconds")).
  - reflexivity.
  - reflexivity.
Defined.

Lemma filterEvents_with_date_witness :
  filterEvents (Firestore.platform sample_parse) filter_social_dated
    (fresh meetup_db) =
    (Ok {| status := 200;
           payload := JArr [JObj (("id", JStr "auto0") :: meetup_data)] |},
     {| backend := Firestore.tick meetup_db;
        trace := [CallQuery [("eventType", JStr "social");
                             ("date", JTimestamp 1714521600 0)]];
        logs := [] |}).
Proof.
  apply (filterEvents_with_date _ (Firestore.platform sample_parse) meetup_db
           (Firestore.tick meetup_db) filter_social_dated
           (JTimestamp 1714521600 0) [("auto0", meetup_data)]).
  - reflexivity.
  - reflexivity.
  - reflexivity.
Defined.

Lemma filterEvents_no_filter_witness :
  filterEvents (Firestore.platform sample_parse)
    {| method := "GET"; query := [("eventType", JStr "")]; body := [] |}
    (fresh meetup_db) =
    (Ok {| status := 400;
           payload := failure_envelope "Missing required fields" 400
                        "Please provide at least one filter" 1700000000001 |},
     fresh meetup_db).
Proof.
  apply (filterEvents_no_filter _ (Firestore.platform sample_parse) meetup_db
           {| method := "GET"; query := [("eventType", JStr "")]; body := [] |}).
  - reflexivity.
  - reflexivity.
Defined.

(** ** All six endpoints *)

(** Each handler answers with one of the status codes written in its code:
    no handler answers 404, and [updateEvent], [deleteEvent] and
    [filterEvents] never answer 405. *)
Theorem handle_statuses :
  forall (S : Type) (P : Platform S) (e : Endpoint) (s : S) (req : Request),
    exists (resp : Response) (w' : World S),
      handle P e req (fresh s) = (Ok resp, w')
      /\ In (status resp) (statuses e).
Proof.
  intros S P e s req.
  destruct e; cbn [handle]; unfold_handler; split_cases;
    do 2 eexists; (split; [reflexivity | ]);
    cbn [status statuses In]; tauto.
Qed.


(** A handler makes only the SDK calls of its own code, and at most one of
    them goes to the backend: nothing is retried. *)
Theorem handle_calls :
  forall (S : Type) (P : Platform S) (e : Endpoint) (s : S) (req : Request),
    exists (resp : Response) (w' : World S),
      handle P e req (fresh s) = (Ok resp, w')
      /\ forallb (may_call e) (trace w') = true
      /\ (List.length (filter is_remote (trace w')) <= 1)%nat.
Proof.
  intros S P e s req.
  destruct e; cbn [handle]; unfold_handler; unfold where_eq; split_cases;
    do 2 eexists; (split; [reflexivity | ]);
    cbn [trace app forallb filter may_call is_remote andb List.length];
    split; solve [reflexivity | lia].
Qed.

(** ** The update trigger *)

(** [updateOnUpdate] on a document id: its one remote call is an update of
    that document with the single field [updatedAt], set to the server
    timestamp sentinel.  Whether the update resolves or throws, the trigger
    ends normally; a thrown error is only logged. *)
Theorem updateOnUpdate_swallows :
  forall (S : Type) (P : Platform S) (s : S) (eventId : string) (ref : DocRef),
    collection_doc (JStr eventId) = Ok ref ->
    exists w' : World S,
      updateOnUpdate P eventId (fresh s) = (Ok tt, w')
      /\ trace w' = [CallDoc (JStr eventId);
                     CallUpdate ref [("updatedAt", JServerTimestamp)]]
      /\ backend w' =
           snd (remote_update P ref [("updatedAt", JServerTimestamp)] s)
      /\ logs w' =
           match fst (remote_update P ref [("updatedAt", JServerTimestamp)] s) with
           | Ok _ => []
           | Throw error =>
               [("Error updating `updatedAt` field on update: ", error)]
           end.
Proof.
  intros S P s eventId ref Href.
  unfold_trigger. rewrite Href. cbn [backend trace logs app].
  destruct (remote_update P ref _ s) as [[[] | error] s1]; cbn [fst snd];
    eexists; repeat split.
Qed.

Lemma updateOnUpdate_swallows_witness :
  exists w' : World Z,
    updateOnUpdate (Outage.platform sample_parse) "auto0" (fresh 1700000000000)
      = (Ok tt, w')
    /\ trace w' = [CallDoc (JStr "auto0");
                   CallUpdate {| ref_path := ["events"; "auto0"] |}
                     [("updatedAt", JServerTimestamp)]]
    /\ backend w' = 1700000000001
    /\ logs w' =
         [("Error updating `updatedAt` field on update: ", Unavailable)].
Proof.
  apply (updateOnUpdate_swallows _ (Outage.platform sample_parse) 1700000000000
           "auto0" {| ref_path := ["events"; "auto0"] |}).
  reflexivity.
Defined.

(** ** Objects *)

Lemma get_prop_set_prop :
  forall (o : Obj) (k k' : string) (v : JsVal),
    get_prop (set_prop k v o) k' =
      if String.eqb k k' then v else get_prop o k'.
Proof.
  induction o as [ | [k0 v0] o IH]; intros k k' v; cbn [set_prop get_prop].
  - reflexivity.
  - destruct (String.eqb k0 k) eqn:E0; cbn [get_prop].
    + apply String.eqb_eq in E0. subst k0.
      destruct (String.eqb k k'); reflexivity.
    + rewrite IH. destruct (String.eqb k0 k') eqn:E1; [ | reflexivity].
      apply String.eqb_eq in E1. subst k'.
      destruct (String.eqb k k0) eqn:E2; [ | reflexivity].
      apply String.eqb_eq in E2. subst k0.
      rewrite String.eqb_refl in E0. discriminate.
Qed.

Lemma get_prop_spread_other :
  forall (src dst : Obj) (k : string),
    ~ In k (map fst src) ->
    get_prop (spread src dst) k = get_prop dst k.
Proof.
  unfold spread.
  induction src as [ | [k0 v0] src IH]; intros dst k Hnot; cbn [fold_left fst snd].
  - reflexivity.
  - cbn [map fst In] in Hnot. rewrite IH by tauto.
    rewrite get_prop_set_prop.
    destruct (String.eqb k0 k) eqn:E; [ | reflexivity].
    apply String.eqb_eq in E. tauto.
Qed.

Lemma get_prop_spread_field :
  forall (src dst : Obj) (k : string) (v : JsVal),
    NoDup (map fst src) ->
    In (k, v) src ->
    get_prop (spread src dst) k = v.
Proof.
  induction src as [ | [k0 v0] src IH]; intros dst k v Hnd Hin.
  - contradiction.
  - cbn [map fst] in Hnd. inversion Hnd as [ | ? ? Hk0 Hnd']. subst.
    destruct Hin as [Heq | Hin].
    + injection Heq as -> ->.
      change (spread ((k, v) :: src) dst) with (spread src (set_prop k v dst)).
      rewrite get_prop_spread_other by exact Hk0.
      rewrite get_prop_set_prop, String.eqb_refl. reflexivity.
    + change (spread ((k0, v0) :: src) dst)
        with (spread src (set_prop k0 v0 dst)).
      apply IH; assumption.
Qed.

(** [{id: doc.id, ...doc.data()}], as the three reading handlers build it:
    every field of the document is in the answer with its value, and [id] is
    the document id unless the document has a field named [id] of its own,
    which then takes its place. *)
Theorem with_id_lookup :
  forall (id : string) (data : Obj) (k : string),
    NoDup (map fst data) ->
    (forall v, In (k, v) data -> get_prop (props_of (with_id id data)) k = v)
    /\ (~ In k (map fst data) ->
        get_prop (props_of (with_id id data)) k =
          if String.eqb "id" k then JStr id else JUndefined).
Proof.
  intros id data k Hnd. unfold with_id. cbn [props_of]. split.
  - intros v Hin. apply get_prop_spread_field; assumption.
  - intros Hnot. rewrite get_prop_spread_other by exact Hnot. reflexivity.
Qed.

Lemma with_id_lookup_witness :
  (forall v, In ("id", v) [("title", JStr "Meetup"); ("id", JStr "mine")] ->
             get_prop (props_of (with_id "auto0"
                                   [("title", JStr "Meetup"); ("id", JStr "mine")]))
               "id" = v)
  /\ (~ In "id" (map fst [("title", JStr "Meetup"); ("id", JStr "mine")]) ->
      get_prop (props_of (with_id "auto0"
                            [("title", JStr "Meetup"); ("id", JStr "mine")]))
        "id" = if String.eqb "id" "id" then JStr "auto0" else JUndefined).
Proof.
  apply (with_id_lookup "auto0" [("title", JStr "Meetup"); ("id", JStr "mine")] "id").
  cbn [map fst]. repeat constructor; cbn [In]; intuition discriminate.
Defined.

(** ** Paths and the documents of the reference backend *)

Lemma Path_eqb_eq :
  forall p q : Path, Path_eqb p q = true <-> p = q.
Proof.
  induction p as [ | a p IH]; intros [ | b q]; cbn [Path_eqb];
    try (split; [discriminate | discriminate]); [tauto | ].
  rewrite andb_true_iff, String.eqb_eq, IH.
  split; [intros [-> ->]; reflexivity | intros H; injection H; auto].
Qed.

Lemma Path_eqb_refl : forall p : Path, Path_eqb p p = true.
Proof. intros p. apply Path_eqb_eq. reflexivity. Qed.

Lemma find_doc_added :
  forall (p : Path) (data : Obj) (l : list (Path * Obj)),
    Firestore.find_doc p l = None ->
    Firestore.find_doc p (l ++ [(p, data)]) = Some data.
Proof.
  intros p data l. unfold Firestore.find_doc.
  induction l as [ | d l IH]; cbn [app find fst snd].
  - rewrite Path_eqb_refl. reflexivity.
  - destruct (Path_eqb (fst d) p); [discriminate | exact IH].
Qed.

Lemma find_doc_replaced :
  forall (p : Path) (data old : Obj) (l : list (Path * Obj)),
    Firestore.find_doc p l = Some old ->
    Firestore.find_doc p (Firestore.replace_doc p data l) = Some data.
Proof.
  intros p data old l. unfold Firestore.find_doc, Firestore.replace_doc.
  induction l as [ | d l IH]; cbn [map find]; [discriminate | ].
  destruct (Path_eqb (fst d) p) eqn:Hd; cbn [fst].
  - rewrite Path_eqb_refl. reflexivity.
  - rewrite Hd. exact IH.
Qed.

Lemma find_doc_not_replaced :
  forall (p q : Path) (data : Obj) (l : list (Path * Obj)),
    q <> p ->
    Firestore.find_doc q (Firestore.replace_doc p data l) =
      Firestore.find_doc q l.
Proof.
  intros p q data l Hne. unfold Firestore.find_doc, Firestore.replace_doc.
  induction l as [ | d l IH]; cbn [map find]; [reflexivity | ].
  destruct (Path_eqb (fst d) p) eqn:Hd; cbn [fst].
  - apply Path_eqb_eq in Hd. rewrite Hd.
    destruct (Path_eqb p q) eqn:Hpq.
    + apply Path_eqb_eq in Hpq. congruence.
    + exact IH.
  - destruct (Path_eqb (fst d) q); [reflexivity | exact IH].
Qed.

Lemma resolve_keys :
  forall (now : Z) (data : Obj),
    map fst (Firestore.resolve now data) = map fst data.
Proof.
  intros now data. unfold Firestore.resolve.
  induction data as [ | [k v] data IH]; cbn [map fst snd]; [reflexivity | ].
  rewrite IH. destruct v; reflexivity.
Qed.

Lemma append_one :
  forall (cur r : string) (c : ascii),
    ((cur ++ String c "") ++ r)%string = (cur ++ String c r)%string.
Proof.
  induction cur as [ | a cur IH]; intros r c; cbn [String.append].
  - reflexivity.
  - rewrite IH. reflexivity.
Qed.

Lemma append_empty :
  forall s : string, (s ++ "")%string = s.
Proof.
  induction s as [ | a s IH]; cbn [String.append]; [reflexivity | ].
  rewrite IH. reflexivity.
Qed.

Lemma split_from_no_slash :
  forall (s cur : string),
    no_slash s = true ->
    split_from cur s =
      if String.eqb (cur ++ s) "" then [] else [(cur ++ s)%string].
Proof.
  induction s as [ | c s IH]; intros cur Hs; cbn [split_from].
  - rewrite append_empty. reflexivity.
  - cbn [no_slash] in Hs. apply andb_true_iff in Hs. destruct Hs as [Hc Hs].
    apply negb_true_iff in Hc. rewrite Hc, (IH _ Hs), append_one.
    reflexivity.
Qed.

Lemma no_double_slash :
  forall s : string, no_slash s = true -> has_double_slash s = false.
Proof.
  induction s as [ | c s IH]; intros Hs; cbn [has_double_slash];
    [reflexivity | ].
  cbn [no_slash] in Hs. apply andb_true_iff in Hs. destruct Hs as [Hc Hs].
  apply negb_true_iff in Hc. destruct s as [ | c' s']; [reflexivity | ].
  rewrite Hc, (IH Hs). reflexivity.
Qed.

(** A non-empty id without [/] names the document of that id in [events]. *)
Lemma collection_doc_plain :
  forall s : string,
    s <> "" -> no_slash s = true ->
    collection_doc (JStr s) = Ok {| ref_path := ["events"; s] |}.
Proof.
  intros s Hne Hs. apply String.eqb_neq in Hne.
  unfold collection_doc, split_path.
  rewrite Hne, (no_double_slash s Hs), (split_from_no_slash s "" Hs).
  cbn [String.append]. rewrite Hne. reflexivity.
Qed.

Lemma no_slash_digits :
  forall d : Decimal.uint, no_slash (NilEmpty.string_of_uint d) = true.
Proof.
  induction d; cbn [NilEmpty.string_of_uint no_slash]; try reflexivity;
    exact IHd.
Qed.

(** The ids the reference backend generates are document ids. *)
Lemma collection_doc_autoId :
  forall n : nat,
    collection_doc (JStr (Firestore.autoId n)) =
      Ok {| ref_path := ["events"; Firestore.autoId n] |}.
Proof.
  intros n. apply collection_doc_plain.
  - unfold Firestore.autoId. cbn [String.append]. discriminate.
  - unfold Firestore.autoId. cbn [String.append no_slash Ascii.eqb Bool.eqb negb andb].
    apply no_slash_digits.
Qed.

(** ** Sequences of requests on the reference backend *)

Lemma truthy_defined :
  forall v : JsVal,
    truthy v = true ->
    match v with JUndefined => true | _ => false end = false.
Proof. intros [] H; try reflexivity; discriminate H. Qed.

(** Create, then get by the returned id: a valid POST on a store where the
    generated id is free is answered 201 with that id, and a GET for the id
    is then answered 200 with the stored document: the submitted fields, the
    date as a [Timestamp], [updatedAt] as the server's time. *)
Theorem createEvent_then_getEventById :
  forall (parse : string -> JsDate) (s : Firestore.State) (req : Request)
         (date' : JsVal),
    method req = "POST" ->
    (forall field, In field required_fields ->
                   truthy (get_prop (body req) field) = true) ->
    Timestamp_fromDate (new_Date parse (get_prop (body req) "date")) = Ok date' ->
    Firestore.find_doc ["events"; Firestore.autoId (Firestore.next_id s)]
      (Firestore.docs s) = None ->
    exists (created : Response) (w1 : World Firestore.State),
      createEvent (Firestore.platform parse) req (fresh s) = (Ok created, w1)
      /\ status created = 201
      /\ get_prop (props_of (get_prop (props_of (payload created)) "data")) "id"
         = JStr (Firestore.autoId (Firestore.next_id s))
      /\ forall req' : Request,
           method req' = "GET" ->
           get_prop (query req') "id" =
             JStr (Firestore.autoId (Firestore.next_id s)) ->
           exists w2 : World Firestore.State,
             getEventById (Firestore.platform parse) req' (fresh (backend w1)) =
               (Ok {| status := 200;
                      payload :=
                        success_envelope
                          (with_id (Firestore.autoId (Firestore.next_id s))
                             (Firestore.resolve (Firestore.clock s)
                                (event_document (body req) date')))
                          (Firestore.clock s + 1) |},
                w2).
Proof.
  intros parse s req date' Hm Hall Hts Hfree.
  destruct (Timestamp_fromDate_Ok _ _ Hts) as (seconds & nanos & ->).
  assert (Hdef : forall field, In field required_fields ->
            match get_prop (body req) field with
            | JUndefined => true | _ => false end = false).
  { intros f Hin. apply truthy_defined, Hall, Hin. }
  unfold_handler.
  cbn [Date_parse Date_now remote_add remote_get Firestore.platform].
  rewrite Hm. cbn [String.eqb Ascii.eqb Bool.eqb negb].
  rewrite !Hall by (unfold required_fields; cbn [In]; tauto).
  cbn [negb orb]. rewrite Hts. cbn [backend trace logs app].
  unfold Firestore.add, Firestore.has_undefined. cbn [existsb snd].
  rewrite !Hdef by (unfold required_fields; cbn [In]; tauto).
  cbn [orb]. rewrite Hfree.
  do 2 eexists. split; [reflexivity | ].
  cbn [status payload props_of get_prop String.eqb Ascii.eqb Bool.eqb backend].
  split; [reflexivity | ]. split; [reflexivity | ].
  intros req' Hm' Hid'.
  rewrite Hm', Hid', collection_doc_autoId.
  cbn [String.eqb Ascii.eqb Bool.eqb negb backend trace logs app].
  unfold Firestore.get. cbn [ref_path Firestore.docs Firestore.clock].
  rewrite (find_doc_added _ _ _ Hfree).
  eexists. reflexivity.
Qed.

Lemma createEvent_then_getEventById_witness :
  exists (created : Response) (w1 : World Firestore.State),
    createEvent (Firestore.platform sample_parse) post_meetup (fresh empty_db)
      = (Ok created, w1)
    /\ status created = 201
    /\ get_prop (props_of (get_prop (props_of (payload created)) "data")) "id"
       = JStr "auto0"
    /\ forall req' : Request,
         method req' = "GET" ->
         get_prop (query req') "id" = JStr "auto0" ->
         exists w2 : World Firestore.State,
           getEventById (Firestore.platform sample_parse) req'
             (fresh (backend w1)) =
             (Ok {| status := 200;
                    payload :=
                      success_envelope
                        (JObj (("id", JStr "auto0") :: meetup_data))
                        1700000000001 |},
              w2).
Proof.
  apply (createEvent_then_getEventById sample_parse empty_db post_meetup
           (JTimestamp 1714521600 0)).
  - reflexivity.
  - intros field Hin. unfold required_fields in Hin. cbn [In] in Hin.
    repeat (destruct Hin as [<- | Hin]; [reflexivity | ]). contradiction.
  - reflexivity.
  - reflexivity.
Defined.

(** Delete, then get: after [deleteEvent] on an id, a GET for the same id is
    answered 200 with the empty object, whether or not the document existed
    before. *)
Theorem deleteEvent_then_getEventById :
  forall (parse : string -> JsDate) (s : Firestore.State) (req : Request)
         (ref : DocRef),
    collection_doc (get_prop (query req) "id") = Ok ref ->
    exists (deleted : Response) (w1 : World Firestore.State),
      deleteEvent (Firestore.platform parse) req (fresh s) = (Ok deleted, w1)
      /\ status deleted = 200
      /\ forall req' : Request,
           method req' = "GET" ->
           get_prop (query req') "id" = get_prop (query req) "id" ->
           exists w2 : World Firestore.State,
             getEventById (Firestore.platform parse) req' (fresh (backend w1)) =
               (Ok {| status := 200;
                      payload := success_envelope (JObj [])
                                   (Firestore.clock s + 1) |},
                w2).
Proof.
  intros parse s req ref Href.
  pose proof (deleteEvent_deleted _ (Firestore.platform parse) s
                (snd (Firestore.delete ref s)) req ref Href eq_refl) as Hdel.
  do 2 eexists. split; [exact Hdel | ]. split; [reflexivity | ].
  intros req' Hm' Hid'. unfold_handler.
  cbn [Date_now remote_get Firestore.platform].
  rewrite Hm', Hid', Href.
  cbn [String.eqb Ascii.eqb Bool.eqb negb backend trace logs app snd
       Firestore.delete].
  unfold Firestore.get. cbn [Firestore.docs Firestore.clock].
  rewrite find_doc_removed. eexists. reflexivity.
Qed.

Lemma deleteEvent_then_getEventById_witness :
  exists (deleted : Response) (w1 : World Firestore.State),
    deleteEvent (Firestore.platform sample_parse) delete_meetup (fresh meetup_db)
      = (Ok deleted, w1)
    /\ status deleted = 200
    /\ forall req' : Request,
         method req' = "GET" ->
         get_prop (query req') "id" = JStr "auto0" ->
         exists w2 : World Firestore.State,
           getEventById (Firestore.platform sample_parse) req'
             (fresh (backend w1)) =
             (Ok {| status := 200;
                    payload := success_envelope (JObj []) 1700000000002 |},
              w2).
Proof.
  apply (deleteEvent_then_getEventById sample_parse meetup_db delete_meetup
           {| ref_path := ["events"; "auto0"] |}).
  reflexivity.
Defined.

Lemma deleteEvent_twice_witness :
  exists (r1 r2 : Response) (w1 w2 : World Firestore.State),
    deleteEvent (Firestore.platform sample_parse) delete_meetup (fresh meetup_db)
      = (Ok r1, w1)
    /\ deleteEvent (Firestore.platform sample_parse) delete_meetup
         (fresh (backend w1)) = (Ok r2, w2)
    /\ status r1 = 200 /\ status r2 = 200
    /\ Firestore.docs (backend w2) = Firestore.docs (backend w1).
Proof.
  apply (deleteEvent_twice sample_parse meetup_db delete_meetup
           {| ref_path := ["events"; "auto0"] |}).
  reflexivity.
Defined.

Lemma updateEvent_missing_document_witness :
  exists w' : World Firestore.State,
    updateEvent (Firestore.platform sample_parse) rename_meetup (fresh empty_db) =
      (Ok {| status := 500;
             payload := failure_envelope "Error updating event" 500
                          "Unable to update event" 1700000000000 |},
       w')
    /\ Firestore.docs (backend w') = [].
Proof.
  apply (updateEvent_missing_document sample_parse empty_db rename_meetup
           {| ref_path := ["events"; "auto0"] |} (JTimestamp 1714521600 0)).
  - reflexivity.
  - reflexivity.
  - reflexivity.
Defined.

(** ** Updates on the reference backend *)

Lemma plain_defined :
  forall v : JsVal,
    plain v = true ->
    match v with JUndefined => true | _ => false end = false.
Proof. intros [] H; try reflexivity; discriminate H. Qed.

Lemma plain_resolved :
  forall (k : string) (v : JsVal) (now : Z),
    plain v = true ->
    match v with
    | JServerTimestamp => (k, Firestore.server_time now)
    | _ => (k, v)
    end = (k, v).
Proof. intros k [] now H; try reflexivity; discriminate H. Qed.

(** [updateEvent] on a stored document, with the six fields in the body and
    a date that converts: the answer is 200; the document then has the five
    other fields as submitted, the date as a [Timestamp], [updatedAt] as the
    server's time, and every field the handler does not name as it was. *)
Theorem updateEvent_overwrites :
  forall (parse : string -> JsDate) (s : Firestore.State) (req : Request)
         (ref : DocRef) (date' : JsVal) (old : Obj),
    collection_doc (get_prop (query req) "id") = Ok ref ->
    (forall field, In field required_fields ->
                   plain (get_prop (body req) field) = true) ->
    Timestamp_fromDate (new_Date parse (get_prop (body req) "date")) = Ok date' ->
    Firestore.find_doc (ref_path ref) (Firestore.docs s) = Some old ->
    exists (w' : World Firestore.State) (new : Obj),
      updateEvent (Firestore.platform parse) req (fresh s) =
        (Ok {| status := 200;
               payload := JObj [("message", JStr "Event updated")] |}, w')
      /\ Firestore.find_doc (ref_path ref) (Firestore.docs (backend w')) =
           Some new
      /\ (forall field, In field required_fields -> field <> "date" ->
                        get_prop new field = get_prop (body req) field)
      /\ get_prop new "date" = date'
      /\ get_prop new "updatedAt" = Firestore.server_time (Firestore.clock s)
      /\ (forall k, ~ In k written_fields -> get_prop new k = get_prop old k).
Proof.
  intros parse s req ref date' old Href Hplain Hts Hold.
  destruct (Timestamp_fromDate_Ok _ _ Hts) as (seconds & nanos & ->).
  assert (Hdef : forall field, In field required_fields ->
            match get_prop (body req) field with
            | JUndefined => true | _ => false end = false).
  { intros f Hin. apply plain_defined, Hplain, Hin. }
  assert (Hres :
    Firestore.resolve (Firestore.clock s)
      [("title", get_prop (body req) "title");
       ("description", get_prop (body req) "description");
       ("date", JTimestamp seconds nanos);
       ("location", get_prop (body req) "location");
       ("organizer", get_prop (body req) "organizer");
       ("eventType", get_prop (body req) "eventType");
       ("updatedAt", JServerTimestamp)] =
      [("title", get_prop (body req) "title");
       ("description", get_prop (body req) "description");
       ("date", JTimestamp seconds nanos);
       ("location", get_prop (body req) "location");
       ("organizer", get_prop (body req) "organizer");
       ("eventType", get_prop (body req) "eventType");
       ("updatedAt", Firestore.server_time (Firestore.clock s))]).
  { unfold Firestore.resolve. cbn [map fst snd].
    rewrite !plain_resolved
      by (apply Hplain; unfold required_fields; cbn [In]; tauto).
    reflexivity. }
  unfold_handler. cbn [Date_parse Date_now remote_update Firestore.platform].
  rewrite Href, Hts. cbn [backend trace logs app].
  unfold Firestore.update, Firestore.has_undefined. cbn [existsb snd].
  rewrite !Hdef by (unfold required_fields; cbn [In]; tauto).
  cbn [orb]. rewrite Hold, Hres.
  do 2 eexists. split; [reflexivity | ].
  cbn [backend Firestore.docs].
  split; [exact (find_doc_replaced _ _ _ _ Hold) | ].
  assert (Hnd : NoDup (map fst
            [("title", get_prop (body req) "title");
             ("description", get_prop (body req) "description");
             ("date", JTimestamp seconds nanos);
             ("location", get_prop (body req) "location");
             ("organizer", get_prop (body req) "organizer");
             ("eventType", get_prop (body req) "eventType");
             ("updatedAt", Firestore.server_time (Firestore.clock s))])).
  { cbn [map fst]. repeat constructor; cbn [In]; intuition discriminate. }
  split; [ | split; [ | split]].
  - intros field Hin Hnot. unfold required_fields in Hin. cbn [In] in Hin.
    apply get_prop_spread_field; [exact Hnd | ].
    cbn [In]. intuition (subst; auto; congruence).
  - apply get_prop_spread_field; [exact Hnd | cbn [In]; auto].
  - apply get_prop_spread_field; [exact Hnd | cbn [In]; tauto].
  - intros k Hk. apply get_prop_spread_other. exact Hk.
Qed.

Lemma updateEvent_overwrites_witness :
  exists (w' : World Firestore.State) (new : Obj),
    updateEvent (Firestore.platform sample_parse) rename_meetup (fresh meetup_db) =
      (Ok {| status := 200;
             payload := JObj [("message", JStr "Event updated")] |}, w')
    /\ Firestore.find_doc ["events"; "auto0"] (Firestore.docs (backend w')) =
         Some new
    /\ (forall field, In field required_fields -> field <> "date" ->
                      get_prop new field = get_prop (body rename_meetup) field)
    /\ get_prop new "date" = JTimestamp 1714521600 0
    /\ get_prop new "updatedAt" = Firestore.server_time 1700000000001
    /\ (forall k, ~ In k written_fields -> get_prop new k = get_prop meetup_data k).
Proof.
  apply (updateEvent_overwrites sample_parse meetup_db rename_meetup
           {| ref_path := ["events"; "auto0"] |} (JTimestamp 1714521600 0)
           meetup_data).
  - reflexivity.
  - intros field Hin. unfold required_fields in Hin. cbn [In] in Hin.
    repeat (destruct Hin as [<- | Hin]; [reflexivity | ]). contradiction.
  - reflexivity.
  - reflexivity.
Defined.

(** [updateEvent] with a field missing from the body: the document handed
    to [update] has [undefined] for it, the SDK refuses it, the answer is
    500 and the store is as it was.  There is no partial update. *)
Theorem updateEvent_missing_body_field :
  forall (parse : string -> JsDate) (s : Firestore.State) (req : Request)
         (ref : DocRef) (date' : JsVal) (field : string),
    collection_doc (get_prop (query req) "id") = Ok ref ->
    Timestamp_fromDate (new_Date parse (get_prop (body req) "date")) = Ok date' ->
    In field required_fields ->
    get_prop (body req) field = JUndefined ->
    exists w' : World Firestore.State,
      updateEvent (Firestore.platform parse) req (fresh s) =
        (Ok {| status := 500;
               payload := failure_envelope "Error updating event" 500
                            "Unable to update event" (Firestore.clock s) |},
         w')
      /\ backend w' = s
      /\ logs w' = [("Error updating event: ", InvalidArgument "dataOrField")].
Proof.
  intros parse s req ref date' field Href Hts Hin Hundef.
  unfold_handler. cbn [Date_parse Date_now remote_update Firestore.platform].
  rewrite Href, Hts. cbn [backend trace logs app].
  unfold Firestore.update, Firestore.has_undefined. cbn [existsb snd].
  unfold required_fields in Hin. cbn [In] in Hin.
  assert (Hdate : field <> "date").
  { intros ->. rewrite Hundef in Hts. discriminate Hts. }
  repeat (destruct Hin as [Hin | Hin];
          [ subst field; try congruence; rewrite Hundef;
            rewrite ?orb_true_r, ?orb_true_l;
            eexists; repeat split | ]).
  contradiction.
Qed.

Lemma updateEvent_missing_body_field_witness :
  exists w' : World Firestore.State,
    updateEvent (Firestore.platform sample_parse)
      {| method := "PUT"; query := [("id", JStr "auto0")];
         body := [("title", JStr "Meetup 2"); ("date", JStr "2024-05-01")] |}
      (fresh meetup_db) =
      (Ok {| status := 500;
             payload := failure_envelope "Error updating event" 500
                          "Unable to update event" 1700000000001 |},
       w')
    /\ backend w' = meetup_db
    /\ logs w' = [("Error updating event: ", InvalidArgument "dataOrField")].
Proof.
  apply (updateEvent_missing_body_field sample_parse meetup_db
           {| method := "PUT"; query := [("id", JStr "auto0")];
              body := [("title", JStr "Meetup 2"); ("date", JStr "2024-05-01")] |}
           {| ref_path := ["events"; "auto0"] |} (JTimestamp 1714521600 0)
           "location").
  - reflexivity.
  - reflexivity.
  - unfold required_fields. cbn [In]. tauto.
  - reflexivity.
Defined.

(** [updateOnUpdate] on a stored document: [updatedAt] becomes the server's
    time, every other field of the document and every other document stay as
    they were, and nothing is logged. *)
Theorem updateOnUpdate_refreshes :
  forall (parse : string -> JsDate) (s : Firestore.State) (eventId : string)
         (ref : DocRef) (old : Obj),
    collection_doc (JStr eventId) = Ok ref ->
    Firestore.find_doc (ref_path ref) (Firestore.docs s) = Some old ->
    exists (w' : World Firestore.State) (new : Obj),
      updateOnUpdate (Firestore.platform parse) eventId (fresh s) = (Ok tt, w')
      /\ logs w' = []
      /\ Firestore.find_doc (ref_path ref) (Firestore.docs (backend w')) =
           Some new
      /\ get_prop new "updatedAt" = Firestore.server_time (Firestore.clock s)
      /\ (forall k, k <> "updatedAt" -> get_prop new k = get_prop old k)
      /\ (forall q, q <> ref_path ref ->
            Firestore.find_doc q (Firestore.docs (backend w')) =
              Firestore.find_doc q (Firestore.docs s)).
Proof.
  intros parse s eventId ref old Href Hold.
  unfold_trigger. cbn [remote_update Firestore.platform].
  rewrite Href. cbn [backend trace logs app].
  unfold Firestore.update.
  cbn [Firestore.has_undefined existsb snd orb Firestore.resolve map fst].
  rewrite Hold. unfold spread. cbn [fold_left fst snd].
  do 2 eexists. split; [reflexivity | ].
  cbn [backend logs Firestore.docs].
  split; [reflexivity | ].
  split; [exact (find_doc_replaced _ _ _ _ Hold) | ].
  split; [ | split].
  - rewrite get_prop_set_prop, String.eqb_refl. reflexivity.
  - intros k Hk. rewrite get_prop_set_prop.
    destruct (String.eqb "updatedAt" k) eqn:E; [ | reflexivity].
    apply String.eqb_eq in E. congruence.
  - intros q Hq. apply find_doc_not_replaced. exact Hq.
Qed.

Lemma updateOnUpdate_refreshes_witness :
  exists (w' : World Firestore.State) (new : Obj),
    updateOnUpdate (Firestore.platform sample_parse) "auto0" (fresh meetup_db)
      = (Ok tt, w')
    /\ logs w' = []
    /\ Firestore.find_doc ["events"; "auto0"] (Firestore.docs (backend w')) =
         Some new
    /\ get_prop new "updatedAt" = Firestore.server_time 1700000000001
    /\ (forall k, k <> "updatedAt" -> get_prop new k = get_prop meetup_data k)
    /\ (forall q, q <> ["events"; "auto0"] ->
          Firestore.find_doc q (Firestore.docs (backend w')) =
            Firestore.find_doc q (Firestore.docs meetup_db)).
Proof.
  apply (updateOnUpdate_refreshes sample_parse meetup_db "auto0"
           {| ref_path := ["events"; "auto0"] |} meetup_data).
  - reflexivity.
  - reflexivity.
Defined.
